(** * Bay Wheels MCP server: nearest bike and nearest dock queries

    A shallow embedding of [server.py].  The two tools
    [find_nearest_bike] and [find_nearest_dock_spaces] are Python
    coroutines over parsed JSON documents; they are modelled here as
    functions in an exception monad over a small universe of Python
    values.  Everything outside the repository (the HTTP client, the JSON
    decoder, geopy's [geodesic], the interpreter's message texts) is a
    field of the record [env]. *)

From Stdlib Require Import ZArith QArith Qround Qabs List String Ascii Bool Lia Lqa Floats.
From Stdlib Require Import Numbers.DecimalString Numbers.DecimalPos.
From Stdlib Require Import Sorting.Permutation Sorting.Sorted.
Import ListNotations.

Set Warnings "-register-all,-inexact-float".

Open Scope string_scope.
Open Scope list_scope.
Open Scope Z_scope.

(** ** Python values *)

(** What [response.json()] can return: JSON objects have string keys;
    numbers are Python ints or binary64 floats. *)
Inductive value : Type :=
| VNone
| VBool (b : bool)
| VInt (n : Z)
| VFloat (f : float)
| VStr (s : string)
| VList (l : list value)
| VDict (d : list (string * value)).

(** The exceptions (subclasses of [Exception]) the two tools can meet.
    [TypeError] and [AttributeError] are raised by the interpreter and keep
    the operation and the offending operand; [LibError] is whatever httpx,
    the JSON decoder or geopy raise, with its description. *)
Inductive exn : Type :=
| KeyError (key : string)
| ValueError (msg : string)
| IndexError
| OverflowError
| TypeError (op : string) (operand : value)
| AttributeError (attr : string) (obj : value)
| LibError (msg : string).

Inductive result (A : Type) : Type :=
| Ok (a : A)
| Raise (e : exn).

Arguments Ok {A} a.
Arguments Raise {A} e.

Definition bind {A B : Type} (r : result A) (k : A -> result B) : result B :=
  match r with
  | Ok a => k a
  | Raise e => Raise e
  end.

Notation "x <- r ;; k" := (bind r (fun x => k))
  (at level 61, r at next level, right associativity).

Module Py.

(** [bool(v)] *)
Definition truthy (v : value) : bool :=
  match v with
  | VNone => false
  | VBool b => b
  | VInt n => negb (n =? 0)
  | VFloat f => negb (PrimFloat.eqb f 0%float)
  | VStr s => negb (s =? "")%string
  | VList l => match l with [] => false | _ => true end
  | VDict d => match d with [] => false | _ => true end
  end.

Fixpoint lookup (k : string) (d : list (string * value)) : option value :=
  match d with
  | [] => None
  | (k', v) :: t => if (k' =? k)%string then Some v else lookup k t
  end.

(** [v.get(k, default)]: only dicts have the method. *)
Definition get (v : value) (k : string) (default : value) : result value :=
  match v with
  | VDict d => Ok (match lookup k d with Some x => x | None => default end)
  | _ => Raise (AttributeError "get" v)
  end.

(** [v[k]] for a string [k]. *)
Definition getitem (v : value) (k : string) : result value :=
  match v with
  | VDict d => match lookup k d with
               | Some x => Ok x
               | None => Raise (KeyError k)
               end
  | _ => Raise (TypeError "subscript" v)
  end.

(** [v == s] for a string [s]: only an equal string is equal to it. *)
Definition eq_str (v : value) (s : string) : bool :=
  match v with
  | VStr t => (t =? s)%string
  | _ => false
  end.

(** [sub in s] on strings. *)
Fixpoint contains (sub s : string) : bool :=
  prefix sub s ||
  match s with
  | EmptyString => false
  | String _ t => contains sub t
  end.

(** [k in v] for a string [k]. *)
Definition contains_key (k : string) (v : value) : result bool :=
  match v with
  | VDict d => Ok (match lookup k d with Some _ => true | None => false end)
  | VList l => Ok (existsb (fun x => eq_str x k) l)
  | VStr s => Ok (contains k s)
  | _ => Raise (TypeError "in" v)
  end.

(** The elements a [for] loop visits: a list's items, a dict's keys, a
    string's characters. *)
Definition iter (v : value) : result (list value) :=
  match v with
  | VList l => Ok l
  | VDict d => Ok (map (fun kv => VStr (fst kv)) d)
  | VStr s => Ok (map (fun c => VStr (String c EmptyString)) (list_ascii_of_string s))
  | _ => Raise (TypeError "iter" v)
  end.

(** Comparison of a float with an int is exact in Python; [None] when
    the float is a NaN. *)
Definition float_compare_int (f : float) (z : Z) : option comparison :=
  match Prim2SF f with
  | S754_zero _ => Some (0 ?= z)
  | S754_infinity s => Some (if s then Lt else Gt)
  | S754_nan => None
  | S754_finite s m e =>
      let n := if s then Z.neg m else Z.pos m in
      Some (if 0 <=? e then (n * 2 ^ e ?= z) else (n ?= z * 2 ^ (- e)))
  end.

(** [v >= c] for an int [c]. *)
Definition ge_int (v : value) (c : Z) : result bool :=
  match v with
  | VBool b => Ok (c <=? Z.b2z b)
  | VInt n => Ok (c <=? n)
  | VFloat f => Ok (match float_compare_int f c with
                    | Some Gt | Some Eq => true
                    | _ => false
                    end)
  | _ => Raise (TypeError ">=" v)
  end.

(** int to float, as the interpreter converts an int operand of a mixed
    sum: correctly rounded, [OverflowError] beyond the binary64 range. *)
Definition int_to_float (z : Z) : result float :=
  match binary_normalize prec emax z 0 false with
  | S754_infinity _ => Raise OverflowError
  | sf => Ok (SF2Prim sf)
  end.

(** [a + b] *)
Definition add (a b : value) : result value :=
  let as_int v :=
    match v with
    | VBool x => Some (Z.b2z x)
    | VInt n => Some n
    | _ => None
    end in
  match a, b with
  | VFloat x, VFloat y => Ok (VFloat (x + y)%float)
  | VFloat x, _ =>
      match as_int b with
      | Some n => y <- int_to_float n ;; Ok (VFloat (x + y)%float)
      | None => Raise (TypeError "+" b)
      end
  | _, VFloat y =>
      match as_int a with
      | Some n => x <- int_to_float n ;; Ok (VFloat (x + y)%float)
      | None => Raise (TypeError "+" a)
      end
  | VStr s, VStr t => Ok (VStr (s ++ t))
  | VList l, VList m => Ok (VList (l ++ m))
  | _, _ =>
      match as_int a, as_int b with
      | Some m, Some n => Ok (VInt (m + n))
      | _, _ => Raise (TypeError "+" b)
      end
  end.

(** Equality of two dict keys: numbers compare by value across bool,
    int and float, a NaN is equal to nothing. *)
Definition key_eq (a b : value) : bool :=
  let as_int v :=
    match v with
    | VBool x => Some (Z.b2z x)
    | VInt n => Some n
    | _ => None
    end in
  match a, b with
  | VNone, VNone => true
  | VStr s, VStr t => (s =? t)%string
  | VFloat x, VFloat y => PrimFloat.eqb x y
  | VFloat x, _ =>
      match as_int b with
      | Some n => match float_compare_int x n with Some Eq => true | _ => false end
      | None => false
      end
  | _, VFloat y =>
      match as_int a with
      | Some n => match float_compare_int y n with Some Eq => true | _ => false end
      | None => false
      end
  | _, _ =>
      match as_int a, as_int b with
      | Some m, Some n => (m =? n)%Z
      | _, _ => false
      end
  end.

(** A dict built at run time, in insertion order. *)
Definition dict := list (value * value).

(** [d[k] = v]: a list or a dict is not hashable; an existing key keeps
    its place and takes the new value. *)
Fixpoint store (d : dict) (k v : value) : dict :=
  match d with
  | [] => [(k, v)]
  | (k', v') :: t => if key_eq k' k then (k', v) :: t else (k', v') :: store t k v
  end.

Definition setitem (d : dict) (k v : value) : result dict :=
  match k with
  | VList _ | VDict _ => Raise (TypeError "hash" k)
  | _ => Ok (store d k v)
  end.

(** [d.get(k)] on such a dict: [None] when the key is absent. *)
Fixpoint dict_get (d : dict) (k : value) : value :=
  match d with
  | [] => VNone
  | (k', v) :: t => if key_eq k' k then v else dict_get t k
  end.

Definition str_of_int (n : Z) : string := NilZero.string_of_int (Z.to_int n).

End Py.

(** ** ASCII text *)

Module AsciiText.

Definition is_ascii (c : ascii) : bool := (nat_of_ascii c <? 128)%nat.

Fixpoint only_ascii (s : string) : bool :=
  match s with
  | EmptyString => true
  | String c t => is_ascii c && only_ascii t
  end.

(** The lower case of a character: the letters A-Z move to a-z. *)
Definition lower_letter (c : ascii) : ascii :=
  let n := nat_of_ascii c in
  if (65 <=? n)%nat && (n <=? 90)%nat then ascii_of_nat (n + 32) else c.

Fixpoint lower (s : string) : string :=
  match s with
  | EmptyString => EmptyString
  | String c t => String (lower_letter c) (lower t)
  end.

End AsciiText.

(** ** The world outside the repository *)

(** An HTTP response: the status line and what [response.json()] gives
    (the decoded body, or the decoder's exception). *)
Record response : Type := {
  status_code : Z;
  json : result value
}.

Record env : Type := {
  (** [await client.get(url)] for the [n]-th request a tool call issues:
      a response, or the transport's exception. *)
  http_get : nat -> value -> result response;
  (** [geodesic((latitude, longitude), (lat, lon)).meters]: a finite
      binary64 number, held as the rational it denotes, or geopy's
      exception. *)
  geodesic : float -> float -> value -> value -> result Q;
  (** Which of the failing fetches of one [asyncio.gather] fails first. *)
  race : nat;
  (** [str(e)] for the exceptions the interpreter raises. *)
  interp_msg : exn -> string;
  (** [str(v)] for floats, lists and dicts. *)
  repr : value -> string;
  (** [s.lower()]: the interpreter's lowercasing of a Unicode string, held
      here by its UTF-8 bytes.  On text made of ASCII characters it is
      [AsciiText.lower]; outside ASCII it follows the Unicode tables (the
      KELVIN SIGN, for one, becomes the letter k). *)
  lower : string -> string
}.

(** [str(e)] *)
Definition str_exn (w : env) (e : exn) : string :=
  match e with
  | KeyError k => "'" ++ k ++ "'"
  | ValueError m => m
  | LibError m => m
  | IndexError => "list index out of range"
  | OverflowError => "int too large to convert to float"
  | _ => interp_msg w e
  end.

(** [f"{v}"] *)
Definition str (w : env) (v : value) : string :=
  match v with
  | VNone => "None"
  | VBool true => "True"
  | VBool false => "False"
  | VInt n => Py.str_of_int n
  | VStr s => s
  | _ => repr w v
  end.

Definition nl : string := String (ascii_of_nat 10) EmptyString.

(** [f"{q:.1f}"]: one decimal, the exact value rounded half to even. *)
Definition round_half_even (q : Q) : Z :=
  let f := Qfloor q in
  match (q - inject_Z f ?= 1 # 2)%Q with
  | Lt => f
  | Gt => f + 1
  | Eq => if Z.even f then f else f + 1
  end.

Definition format_1f (q : Q) : string :=
  let n := round_half_even (inject_Z 10 * Qabs q) in
  (if Qle_bool 0 q then "" else "-")
    ++ Py.str_of_int (n / 10) ++ "." ++ Py.str_of_int (n mod 10).

(** ** server.py *)

Definition GBFS_DISCOVERY_URL : string :=
  "https://gbfs.baywheels.com/gbfs/2.3/gbfs.json".

(** The [for feed in feeds] loop of [get_feed_url] and the [raise] after
    it. *)
Fixpoint find_feed (feeds : list value) (feed_name : string) : result value :=
  match feeds with
  | [] => Raise (ValueError ("Feed " ++ feed_name ++ " not found"))
  | feed :: rest =>
      name <- Py.get feed "name" VNone ;;
      if Py.eq_str name feed_name then Py.get feed "url" VNone
      else find_feed rest feed_name
  end.

Definition get_feed_url (w : env) (n : nat) (feed_name : string) : result value :=
  response <- http_get w n (VStr GBFS_DISCOVERY_URL) ;;
  data <- json response ;;
  d <- Py.get data "data" (VDict []) ;;
  en <- Py.get d "en" (VDict []) ;;
  feeds <- Py.get en "feeds" (VList []) ;;
  fs <- Py.iter feeds ;;
  find_feed fs feed_name.

Definition fetch_feed (w : env) (n : nat) (url : value) : result value :=
  response <- http_get w n url ;;
  json response.

(** [await asyncio.gather(...)]: all the results, or the exception of the
    fetch that fails first. *)
Definition raised (rs : list (result value)) : list exn :=
  flat_map (fun r => match r with Ok _ => [] | Raise e => [e] end) rs.

Definition first_failure (w : env) (e : exn) (es : list exn) : exn :=
  nth (Nat.modulo (race w) (S (List.length es))) (e :: es) e.

Definition gather3 (w : env) (r1 r2 r3 : result value)
  : result (value * value * value) :=
  match r1, r2, r3 with
  | Ok a, Ok b, Ok c => Ok (a, b, c)
  | _, _, _ =>
      match raised [r1; r2; r3] with
      | e :: es => Raise (first_failure w e es)
      | [] => Raise IndexError
      end
  end.

Definition gather2 (w : env) (r1 r2 : result value) : result (value * value) :=
  match r1, r2 with
  | Ok a, Ok b => Ok (a, b)
  | _, _ =>
      match raised [r1; r2] with
      | e :: es => Raise (first_failure w e es)
      | [] => Raise IndexError
      end
  end.

(** [{s["station_id"]: s for s in v}] *)
Fixpoint index_by_station_id (ss : list value) (d : Py.dict) : result Py.dict :=
  match ss with
  | [] => Ok d
  | s :: rest =>
      k <- Py.getitem s "station_id" ;;
      d' <- Py.setitem d k s ;;
      index_by_station_id rest d'
  end.

Definition by_station_id (v : value) : result Py.dict :=
  ss <- Py.iter v ;;
  index_by_station_id ss [].

(** Lines 70-75: the vehicle type the label asks for. *)
Definition target_type_id (w : env) (bike_type : option string) : option string :=
  match bike_type with
  | None => None
  | Some bt =>
      if negb (bt =? "")%string then
        if Py.contains "electric" (lower w bt) || Py.contains "ebike" (lower w bt)
        then Some "2"
        else if Py.contains "classic" (lower w bt) || Py.contains "standard" (lower w bt)
        then Some "1"
        else None
      else None
  end.

(** An entry of [candidates] in [find_nearest_bike]. *)
Record candidate : Type := {
  c_type : string;
  c_name : value;
  c_distance : Q;
  c_available : value;
  c_lat : value;
  c_lon : value
}.

(** An entry of [candidates] in [find_nearest_dock_spaces]: no ["type"]. *)
Record dock_candidate : Type := {
  d_name : value;
  d_distance : Q;
  d_available : value;
  d_lat : value;
  d_lon : value
}.

(** A [for] loop whose body appends at most one entry to [candidates]. *)
Fixpoint collect {A B : Type} (body : A -> result (option B)) (xs : list A)
  (candidates : list B) : result (list B) :=
  match xs with
  | [] => Ok candidates
  | x :: rest =>
      c <- body x ;;
      collect body rest
        (match c with Some y => candidates ++ [y] | None => candidates end)
  end.

(** Lines 87-89: the sum over [status["vehicle_types_available"]]. *)
Fixpoint sum_matching (t : string) (vs : list value) (available_count : value)
  : result value :=
  match vs with
  | [] => Ok available_count
  | v :: rest =>
      ty <- Py.get v "vehicle_type_id" VNone ;;
      if Py.eq_str ty t then
        c <- Py.get v "count" (VInt 0) ;;
        a <- Py.add available_count c ;;
        sum_matching t rest a
      else sum_matching t rest available_count
  end.

(** Lines 83-92. *)
Definition available_bikes (target : option string) (status : value) : result value :=
  match target with
  | Some t =>
      has <- Py.contains_key "vehicle_types_available" status ;;
      if has : bool then
        vta <- Py.getitem status "vehicle_types_available" ;;
        vs <- Py.iter vta ;;
        sum_matching t vs (VInt 0)
      else Ok (VInt 0)
  | None => Py.get status "num_bikes_available" (VInt 0)
  end.

(** Lines 79-103: the body of the loop over [stations.items()].  The dict
    literal reads [station["lat"]] and [station["lon"]] a second time; the
    reads that can raise come first, in the order of the source. *)
Definition bike_station_body (w : env) (latitude longitude : float) (count : Z)
  (target : option string) (statuses : Py.dict) (item : value * value)
  : result (option candidate) :=
  let '(station_id, station) := item in
  let status := Py.dict_get statuses station_id in
  if negb (Py.truthy status) then Ok None else
  is_renting <- Py.get status "is_renting" VNone ;;
  if negb (Py.truthy is_renting) then Ok None else
  available_count <- available_bikes target status ;;
  enough <- Py.ge_int available_count count ;;
  if enough : bool then
    lat <- Py.getitem station "lat" ;;
    lon <- Py.getitem station "lon" ;;
    dist <- geodesic w latitude longitude lat lon ;;
    name <- Py.getitem station "name" ;;
    Ok (Some {| c_type := "Station"; c_name := name; c_distance := dist;
                c_available := available_count; c_lat := lat; c_lon := lon |})
  else Ok None.

(** Lines 108-123: the body of the loop over [free_bikes]. *)
Definition free_bike_body (w : env) (latitude longitude : float)
  (target : option string) (bike : value) : result (option candidate) :=
  is_reserved <- Py.get bike "is_reserved" VNone ;;
  unavailable <- (if Py.truthy is_reserved then Ok true
                  else is_disabled <- Py.get bike "is_disabled" VNone ;;
                       Ok (Py.truthy is_disabled)) ;;
  if unavailable : bool then Ok None else
  other_type <- match target with
                | Some t => ty <- Py.get bike "vehicle_type_id" VNone ;;
                            Ok (negb (Py.eq_str ty t))
                | None => Ok false
                end ;;
  if other_type : bool then Ok None else
  lat <- Py.getitem bike "lat" ;;
  lon <- Py.getitem bike "lon" ;;
  dist <- geodesic w latitude longitude lat lon ;;
  bike_id <- Py.get bike "bike_id" (VStr "unknown") ;;
  Ok (Some {| c_type := "Free Bike";
              c_name := VStr ("Free Bike (" ++ str w bike_id ++ ")");
              c_distance := dist; c_available := VInt 1;
              c_lat := lat; c_lon := lon |}).

(** Lines 66-123: [candidates] as it stands before the sort. *)
Definition bike_candidates (w : env) (latitude longitude : float) (count : Z)
  (target : option string) (stations statuses : Py.dict) (free_bikes : value)
  : result (list candidate) :=
  candidates <- collect (bike_station_body w latitude longitude count target statuses)
                  stations [] ;;
  if (count =? 1)%Z then
    bikes <- Py.iter free_bikes ;;
    collect (free_bike_body w latitude longitude target) bikes candidates
  else Ok candidates.

(** [candidates.sort(key=lambda x: x["distance"])]: a stable sort that
    compares keys with [<] only. *)
Definition Qltb (x y : Q) : bool := negb (Qle_bool y x).

Fixpoint insert_by {A : Type} (key : A -> Q) (x : A) (l : list A) : list A :=
  match l with
  | [] => [x]
  | y :: t => if Qltb (key y) (key x) then y :: insert_by key x t else x :: l
  end.

Definition sort_by {A : Type} (key : A -> Q) (l : list A) : list A :=
  fold_right (insert_by key) [] l.

Definition render_bike (w : env) (nearest : candidate) : string :=
  "Nearest option: " ++ c_type nearest ++ " - " ++ str w (c_name nearest) ++ nl
  ++ "Distance: " ++ format_1f (c_distance nearest) ++ " meters" ++ nl
  ++ "Available: " ++ str w (c_available nearest) ++ nl
  ++ "Location: " ++ str w (c_lat nearest) ++ ", " ++ str w (c_lon nearest).

(** Lines 125-135. *)
Definition answer_bike (w : env) (candidates : list candidate) : result string :=
  match candidates with
  | [] => Ok "No bikes found matching criteria."
  | _ =>
      match sort_by c_distance candidates with
      | nearest :: _ => Ok (render_bike w nearest)
      | [] => Raise IndexError
      end
  end.

(** Lines 51-123 of [find_nearest_bike]: from the first request to the
    last [append]. *)
Definition find_nearest_bike_candidates (w : env) (latitude longitude : float)
  (count : Z) (bike_type : option string) : result (list candidate) :=
  station_info_url <- get_feed_url w 0 "station_information" ;;
  station_status_url <- get_feed_url w 1 "station_status" ;;
  free_bike_status_url <- get_feed_url w 2 "free_bike_status" ;;
  fetched <- gather3 w (fetch_feed w 3 station_info_url)
                       (fetch_feed w 4 station_status_url)
                       (fetch_feed w 5 free_bike_status_url) ;;
  let '(station_info_data, station_status_data, free_bike_data) := fetched in
  info <- Py.getitem station_info_data "data" ;;
  info_stations <- Py.getitem info "stations" ;;
  stations <- by_station_id info_stations ;;
  stat <- Py.getitem station_status_data "data" ;;
  stat_stations <- Py.getitem stat "stations" ;;
  statuses <- by_station_id stat_stations ;;
  free <- Py.getitem free_bike_data "data" ;;
  free_bikes <- Py.getitem free "bikes" ;;
  bike_candidates w latitude longitude count
    (target_type_id w bike_type) stations statuses free_bikes.

(** The [try] block of [find_nearest_bike]. *)
Definition find_nearest_bike_try (w : env) (latitude longitude : float)
  (count : Z) (bike_type : option string) : result string :=
  candidates <- find_nearest_bike_candidates w latitude longitude count bike_type ;;
  answer_bike w candidates.

Definition find_nearest_bike (w : env) (latitude longitude : float)
  (count : Z) (bike_type : option string) : string :=
  match find_nearest_bike_try w latitude longitude count bike_type with
  | Ok text => text
  | Raise e => "Error finding nearest bike: " ++ str_exn w e
  end.

(** Lines 165-177: the body of the loop over [stations.items()]. *)
Definition dock_station_body (w : env) (latitude longitude : float) (count : Z)
  (statuses : Py.dict) (item : value * value) : result (option dock_candidate) :=
  let '(station_id, station) := item in
  let status := Py.dict_get statuses station_id in
  if negb (Py.truthy status) then Ok None else
  is_returning <- Py.get status "is_returning" VNone ;;
  if negb (Py.truthy is_returning) then Ok None else
  docks <- Py.get status "num_docks_available" (VInt 0) ;;
  enough <- Py.ge_int docks count ;;
  if enough : bool then
    lat <- Py.getitem station "lat" ;;
    lon <- Py.getitem station "lon" ;;
    dist <- geodesic w latitude longitude lat lon ;;
    name <- Py.getitem station "name" ;;
    available <- Py.getitem status "num_docks_available" ;;
    Ok (Some {| d_name := name; d_distance := dist; d_available := available;
                d_lat := lat; d_lon := lon |})
  else Ok None.

Definition dock_candidates (w : env) (latitude longitude : float) (count : Z)
  (stations statuses : Py.dict) : result (list dock_candidate) :=
  collect (dock_station_body w latitude longitude count statuses) stations [].

Definition render_dock (w : env) (nearest : dock_candidate) : string :=
  "Nearest dock with spaces: " ++ str w (d_name nearest) ++ nl
  ++ "Distance: " ++ format_1f (d_distance nearest) ++ " meters" ++ nl
  ++ "Spaces Available: " ++ str w (d_available nearest) ++ nl
  ++ "Location: " ++ str w (d_lat nearest) ++ ", " ++ str w (d_lon nearest).

(** Lines 179-188. *)
Definition answer_dock (w : env) (candidates : list dock_candidate) : result string :=
  match candidates with
  | [] => Ok "No docks found with sufficient spaces."
  | _ =>
      match sort_by d_distance candidates with
      | nearest :: _ => Ok (render_dock w nearest)
      | [] => Raise IndexError
      end
  end.

(** Lines 151-177 of [find_nearest_dock_spaces]. *)
Definition find_nearest_dock_spaces_candidates (w : env) (latitude longitude : float)
  (count : Z) : result (list dock_candidate) :=
  station_info_url <- get_feed_url w 0 "station_information" ;;
  station_status_url <- get_feed_url w 1 "station_status" ;;
  fetched <- gather2 w (fetch_feed w 2 station_info_url)
                       (fetch_feed w 3 station_status_url) ;;
  let '(station_info_data, station_status_data) := fetched in
  info <- Py.getitem station_info_data "data" ;;
  info_stations <- Py.getitem info "stations" ;;
  stations <- by_station_id info_stations ;;
  stat <- Py.getitem station_status_data "data" ;;
  stat_stations <- Py.getitem stat "stations" ;;
  statuses <- by_station_id stat_stations ;;
  dock_candidates w latitude longitude count stations statuses.

(** The [try] block of [find_nearest_dock_spaces]. *)
Definition find_nearest_dock_spaces_try (w : env) (latitude longitude : float)
  (count : Z) : result string :=
  candidates <- find_nearest_dock_spaces_candidates w latitude longitude count ;;
  answer_dock w candidates.

Definition find_nearest_dock_spaces (w : env) (latitude longitude : float)
  (count : Z) : string :=
  match find_nearest_dock_spaces_try w latitude longitude count with
  | Ok text => text
  | Raise e => "Error finding nearest dock spaces: " ++ str_exn w e
  end.

(** ** The specification's reading of a query *)

Module Spec.

(** A member of a JSON object. *)
Definition field (v : value) (k : string) : option value :=
  match v with
  | VDict d => Py.lookup k d
  | _ => None
  end.

(** A flag is on when it is present and true. *)
Definition flag (v : value) (k : string) : bool :=
  match field v k with
  | Some x => Py.truthy x
  | None => false
  end.

(** The status joined to a station: the one filed under its identifier. *)
Definition joined (statuses : Py.dict) (station_id : value) : option value :=
  option_map snd (find (fun kv => Py.key_eq (fst kv) station_id) statuses).

(** The per-type breakdown of a status, empty when absent. *)
Definition breakdown (status : value) : list value :=
  match field status "vehicle_types_available" with
  | Some (VList vs) => vs
  | _ => []
  end.

Definition has_type (t : string) (v : value) : bool :=
  match field v "vehicle_type_id" with
  | Some ty => Py.eq_str ty t
  | None => false
  end.

Definition count_of (v : value) : value :=
  match field v "count" with
  | Some c => c
  | None => VInt 0
  end.

(** Python's [sum]: left to right, from [from]. *)
Fixpoint sum (vs : list value) (from : value) : result value :=
  match vs with
  | [] => Ok from
  | v :: rest => a <- Py.add from v ;; sum rest a
  end.

(** availableCount of section 4.3, step 4. *)
Definition available_count (target : option string) (status : value) : result value :=
  match target with
  | Some t => sum (map count_of (filter (has_type t) (breakdown status))) (VInt 0)
  | None => Ok (match field status "num_bikes_available" with
                | Some n => n
                | None => VInt 0
                end)
  end.

Definition at_least (a : result value) (count : Z) : bool :=
  match a with
  | Ok v => match Py.ge_int v count with Ok b => b | Raise _ => false end
  | Raise _ => false
  end.

(** The eligibility predicate of a station for [find_nearest_bike]. *)
Definition station_eligible (target : option string) (count : Z)
  (statuses : Py.dict) (station_id : value) : bool :=
  match joined statuses station_id with
  | Some status =>
      flag status "is_renting" && at_least (available_count target status) count
  | None => false
  end.

(** The eligibility predicate of a free bike (section 4.3, step 5). *)
Definition free_bike_eligible (target : option string) (bike : value) : bool :=
  negb (flag bike "is_reserved") && negb (flag bike "is_disabled") &&
  match target with
  | Some t => has_type t bike
  | None => true
  end.

(** A candidate describes a station: its name and position, its
    availableCount, its distance from the query point. *)
Definition describes_station (w : env) (latitude longitude : float)
  (target : option string) (statuses : Py.dict) (item : value * value)
  (c : candidate) : Prop :=
  c_type c = "Station" /\
  field (snd item) "name" = Some (c_name c) /\
  field (snd item) "lat" = Some (c_lat c) /\
  field (snd item) "lon" = Some (c_lon c) /\
  (exists status, joined statuses (fst item) = Some status /\
                  available_count target status = Ok (c_available c)) /\
  geodesic w latitude longitude (c_lat c) (c_lon c) = Ok (c_distance c).

Definition describes_free_bike (w : env) (latitude longitude : float)
  (bike : value) (c : candidate) : Prop :=
  c_type c = "Free Bike" /\
  c_available c = VInt 1 /\
  field bike "lat" = Some (c_lat c) /\
  field bike "lon" = Some (c_lon c) /\
  geodesic w latitude longitude (c_lat c) (c_lon c) = Ok (c_distance c).

(** [x] is the entry of [l] nearest by [key], the first such on ties. *)
Definition first_nearest {A : Type} (key : A -> Q) (l : list A) (x : A) : Prop :=
  exists pre post,
    l = pre ++ x :: post /\
    (forall c, In c pre -> (key x < key c)%Q) /\
    (forall c, In c post -> (key x <= key c)%Q).

End Spec.

(** An element of a station feed that [by_station_id] accepted. *)
Definition has_station_id (v : value) : Prop :=
  exists d k, v = VDict d /\ Py.lookup "station_id" d = Some k.

(** The entries a list of loop outcomes leaves in [candidates]. *)
Definition kept {B : Type} (outs : list (option B)) : list B :=
  flat_map (fun o => match o with Some c => [c] | None => [] end) outs.

(** ** A small feed to run the tools on *)

Module Example.

Definition Q_of_float (f : float) : option Q :=
  match Prim2SF f with
  | S754_zero _ => Some 0%Q
  | S754_finite s m e =>
      Some (inject_Z (if s then Z.neg m else Z.pos m) * Qpower 2 e)%Q
  | _ => None
  end.

Definition Q_of_value (v : value) : result Q :=
  match v with
  | VInt n => Ok (inject_Z n)
  | VFloat f => match Q_of_float f with
                | Some q => Ok q
                | None => Raise (LibError "Point coordinates must be finite.")
                end
  | _ => Raise (TypeError "float" v)
  end.

(** A stand-in for geopy: 100 km per degree along the grid. *)
Definition grid_metric (latitude longitude : float) (lat lon : value) : result Q :=
  a <- Q_of_value (VFloat latitude) ;;
  b <- Q_of_value (VFloat longitude) ;;
  c <- Q_of_value lat ;;
  d <- Q_of_value lon ;;
  Ok (Qred (inject_Z 100000 * (Qabs (a - c) + Qabs (b - d)))).

Definition feed (name url : string) : value :=
  VDict [("name", VStr name); ("url", VStr url)].

Definition discovery : value :=
  VDict [("data", VDict [("en", VDict [("feeds", VList [
    feed "station_information" "https://feeds.example/station_information.json";
    feed "station_status" "https://feeds.example/station_status.json";
    feed "free_bike_status" "https://feeds.example/free_bike_status.json"])])])].

Definition ok_json (v : value) : result response :=
  Ok {| status_code := 200; json := Ok v |}.

Definition serve (info status free : value) (n : nat) (url : value)
  : result response :=
  match url with
  | VStr u =>
      if (u =? GBFS_DISCOVERY_URL)%string then ok_json discovery
      else if (u =? "https://feeds.example/station_information.json")%string then ok_json info
      else if (u =? "https://feeds.example/station_status.json")%string then ok_json status
      else if (u =? "https://feeds.example/free_bike_status.json")%string then ok_json free
      else Raise (LibError "All connection attempts failed")
  | _ => Raise (LibError "Invalid type for url")
  end.

Definition world (info status free : value) : env :=
  {| http_get := serve info status free;
     geodesic := grid_metric;
     race := 0;
     interp_msg := fun _ => "type error";
     repr := fun _ => "?";
     lower := AsciiText.lower |}.

Definition stations_doc (l : list value) : value :=
  VDict [("data", VDict [("stations", VList l)])].

Definition bikes_doc (l : list value) : value :=
  VDict [("data", VDict [("bikes", VList l)])].

Definition station (id name : string) (lat lon : Z) : value :=
  VDict [("station_id", VStr id); ("name", VStr name);
         ("lat", VInt lat); ("lon", VInt lon)].

Definition status (id : string) (renting returning : bool) (bikes docks : Z)
  (types : list (string * Z)) : value :=
  VDict [("station_id", VStr id); ("is_renting", VBool renting);
         ("is_returning", VBool returning);
         ("num_bikes_available", VInt bikes); ("num_docks_available", VInt docks);
         ("vehicle_types_available",
          VList (map (fun tc => VDict [("vehicle_type_id", VStr (fst tc));
                                       ("count", VInt (snd tc))]) types))].

Definition bike (id : string) (lat lon : Z) (reserved disabled : bool)
  (type : string) : value :=
  VDict [("bike_id", VStr id); ("lat", VInt lat); ("lon", VInt lon);
         ("is_reserved", VBool reserved); ("is_disabled", VBool disabled);
         ("vehicle_type_id", VStr type)].

(** Three stations on a line and three free bikes. *)
Definition info : list value :=
  [station "S1" "Ferry Building" 37 (-122);
   station "S2" "Market St" 38 (-122);
   station "S3" "Depot" 37 (-121)].

Definition statuses : list value :=
  [status "S1" true true 5 3 [("1", 3); ("2", 2)];
   status "S2" true false 9 0 [("1", 9)];
   status "S3" false true 7 7 [("2", 7)]].

Definition bikes : list value :=
  [bike "B1" 37 (-122) false false "2";
   bike "B2" 37 (-122) true false "1";
   bike "B3" 36 (-122) false true "1"].

Definition city : env :=
  world (stations_doc info) (stations_doc statuses) (bikes_doc bikes).

(** The feeds of [city] indexed as [by_station_id] does. *)
Definition station_index : Py.dict :=
  Eval vm_compute in
    match by_station_id (VList info) with Ok d => d | Raise _ => [] end.

Definition status_index : Py.dict :=
  Eval vm_compute in
    match by_station_id (VList statuses) with Ok d => d | Raise _ => [] end.

(** The candidates of a query for one bike of any type at the Ferry
    Building: station S1 and free bike B1 are both at distance 0. *)
Definition ferry_building : candidate :=
  {| c_type := "Station"; c_name := VStr "Ferry Building"; c_distance := 0;
     c_available := VInt 5; c_lat := VInt 37; c_lon := VInt (-122) |}.

Definition market_st : candidate :=
  {| c_type := "Station"; c_name := VStr "Market St"; c_distance := 100000;
     c_available := VInt 9; c_lat := VInt 38; c_lon := VInt (-122) |}.

Definition bike_B1 : candidate :=
  {| c_type := "Free Bike"; c_name := VStr "Free Bike (B1)"; c_distance := 0;
     c_available := VInt 1; c_lat := VInt 37; c_lon := VInt (-122) |}.

Definition city_candidates : list candidate :=
  [ferry_building; market_st; bike_B1].

(** The candidates of a query for one dock at the same place. *)
Definition ferry_building_dock : dock_candidate :=
  {| d_name := VStr "Ferry Building"; d_distance := 0;
     d_available := VInt 3; d_lat := VInt 37; d_lon := VInt (-122) |}.

Definition depot_dock : dock_candidate :=
  {| d_name := VStr "Depot"; d_distance := 100000;
     d_available := VInt 7; d_lat := VInt 37; d_lon := VInt (-121) |}.

Definition city_docks : list dock_candidate :=
  [ferry_building_dock; depot_dock].

(** The same feed behind a server that answers every station-status
    request with 503 and a JSON error body. *)
Definition error_body : value := VDict [("error", VStr "Service Unavailable")].

Definition outage : env :=
  {| http_get := fun n url =>
       match url with
       | VStr "https://feeds.example/station_status.json" =>
           Ok {| status_code := 503; json := Ok error_body |}
       | _ => serve (stations_doc info) (stations_doc statuses) (bikes_doc bikes) n url
       end;
     geodesic := grid_metric;
     race := 0;
     interp_msg := fun _ => "type error";
     repr := fun _ => "?";
     lower := AsciiText.lower |}.

(** A station whose status reports no dock count (GBFS allows that for a
    station with unlimited docking capacity). *)
Definition virtual_statuses : list value :=
  [VDict [("station_id", VStr "S1"); ("is_renting", VBool true);
          ("is_returning", VBool true); ("num_bikes_available", VInt 5)]].

Definition virtual_city : env :=
  world (stations_doc info) (stations_doc virtual_statuses) (bikes_doc bikes).

(** No network at all. *)
Definition offline : env :=
  {| http_get := fun _ _ => Raise (LibError "All connection attempts failed");
     geodesic := grid_metric;
     race := 0;
     interp_msg := fun _ => "type error";
     repr := fun _ => "?";
     lower := AsciiText.lower |}.

End Example.

(** ** Further readings of the feeds *)

Module Feeds.

Definition is_dict (v : value) : bool :=
  match v with
  | VDict _ => true
  | _ => false
  end.

(** The feed descriptors a discovery document advertises for the locale
    "en": none when a level is absent, [None] when a level that is present
    has another shape than a JSON object (a JSON array for the last). *)
Definition advertised (data : value) : option (list value) :=
  match data with
  | VDict top =>
      match Py.lookup "data" top with
      | None => Some []
      | Some (VDict d) =>
          match Py.lookup "en" d with
          | None => Some []
          | Some (VDict en) =>
              match Py.lookup "feeds" en with
              | None => Some []
              | Some (VList fs) => Some fs
              | Some _ => None
              end
          | Some _ => None
          end
      | Some _ => None
      end
  | _ => None
  end.

(** A descriptor carries the name [feed_name]. *)
Definition named (feed_name : string) (feed : value) : bool :=
  match Spec.field feed "name" with
  | Some v => Py.eq_str v feed_name
  | None => false
  end.

Definition url_of (feed : value) : value :=
  match Spec.field feed "url" with
  | Some u => u
  | None => VNone
  end.

(** A record of a station feed filed under the string [id]. *)
Definition has_id (id : string) (s : value) : bool :=
  match Spec.field s "station_id" with
  | Some v => Py.eq_str v id
  | None => false
  end.

(** A record whose [station_id] is a string, as GBFS has it. *)
Definition string_id (s : value) : bool :=
  match Spec.field s "station_id" with
  | Some (VStr _) => true
  | _ => false
  end.

(** No key of a run-time dict is equal to a later one. *)
Fixpoint distinct_keys (d : Py.dict) : Prop :=
  match d with
  | [] => True
  | (k, _) :: t =>
      Forall (fun kv => Py.key_eq k (fst kv) = false) t /\ distinct_keys t
  end.




(** An entry of the dict: a record, filed under its own [station_id] or
    under an earlier key equal to it. *)
Definition filed (kv : value * value) : Prop :=
  exists fields id,
    snd kv = VDict fields /\ Py.lookup "station_id" fields = Some id /\
    (id = fst kv \/ Py.key_eq (fst kv) id = true).

End Feeds.

(** More feeds to run the tools on. *)

Module Scenario.

(** A discovery document that advertises no free-bike feed. *)
Definition docked_only : value :=
  VDict [("data", VDict [("en", VDict [("feeds", VList [
    Example.feed "station_information" "https://feeds.example/station_information.json";
    Example.feed "station_status" "https://feeds.example/station_status.json"])])])].

(** A discovery document for another locale only. *)
Definition french : value :=
  VDict [("data", VDict [("fr", VDict [("feeds", VList [
    Example.feed "station_information" "https://feeds.example/station_information.json"])])])].

Definition answering (discovery : value) : env :=
  {| http_get := fun _ _ => Example.ok_json discovery;
     geodesic := Example.grid_metric;
     race := 0;
     interp_msg := fun _ => "type error";
     repr := fun _ => "?";
     lower := AsciiText.lower |}.

(** The city of [Example] when the free-bike feed cannot be reached. *)
Definition free_feed_down : env :=
  {| http_get := fun n url =>
       match url with
       | VStr "https://feeds.example/free_bike_status.json" =>
           Raise (LibError "Read timed out")
       | _ => http_get Example.city n url
       end;
     geodesic := Example.grid_metric;
     race := 0;
     interp_msg := fun _ => "type error";
     repr := fun _ => "?";
     lower := AsciiText.lower |}.

(** A status feed that lists station S1 twice, the second time with
    other counts. *)
Definition reissued : list value :=
  [Example.status "S1" true true 5 3 [];
   Example.status "S2" true false 9 0 [];
   Example.status "S1" true true 1 8 []].

Definition reissued_index : Py.dict :=
  Eval vm_compute in
    match by_station_id (VList reissued) with Ok d => d | Raise _ => [] end.

(** The status index of [Example.virtual_city]. *)
Definition virtual_index : Py.dict :=
  Eval vm_compute in
    match by_station_id (VList Example.virtual_statuses) with
    | Ok d => d
    | Raise _ => []
    end.

(** A free bike whose record has no [bike_id]. *)
Definition anonymous_bike : value :=
  VDict [("lat", VInt 37); ("lon", VInt (-122))].

End Scenario.

(** ** Feeds of the GBFS shape *)

Module Shape.

(** An optional integer member. *)
Definition int_or_absent (v : option value) : bool :=
  match v with
  | None => true
  | Some (VInt _) => true
  | Some _ => false
  end.

(** An entry of [vehicle_types_available]: an object with an integer
    count. *)
Definition typed_entry (v : value) : bool :=
  Feeds.is_dict v && int_or_absent (Spec.field v "count").

(** A status: integer counts, a dock count, a breakdown that is a list of
    typed entries when present. *)
Definition typed_status (s : value) : bool :=
  int_or_absent (Spec.field s "num_bikes_available")
  && match Spec.field s "num_docks_available" with
     | Some (VInt _) => true
     | _ => false
     end
  && match Spec.field s "vehicle_types_available" with
     | None => true
     | Some (VList vs) => forallb typed_entry vs
     | Some _ => false
     end.

(** A record with a position geopy accepts. *)
Definition located (w : env) (latitude longitude : float) (v : value) : Prop :=
  exists lat lon dist,
    Spec.field v "lat" = Some lat /\ Spec.field v "lon" = Some lon /\
    geodesic w latitude longitude lat lon = Ok dist.

(** A station record: a position and a name. *)
Definition station_record (w : env) (latitude longitude : float) (v : value)
  : Prop :=
  located w latitude longitude v /\ exists name, Spec.field v "name" = Some name.

End Shape.

(** ** The typed reading of a query *)

(** What section 4.3 says a query answers, read on feeds of the GBFS
    types: flags are JSON booleans, counts are integers, identifiers are
    strings.  Nothing here goes through the interpreter's operations. *)

Module Gbfs.

(** A flag that is present and true. *)
Definition on (v : option value) : bool :=
  match v with
  | Some (VBool true) => true
  | _ => false
  end.

Definition flag_or_absent (v : option value) : bool :=
  match v with
  | None => true
  | Some (VBool _) => true
  | Some _ => false
  end.

Definition text_or_absent (v : option value) : bool :=
  match v with
  | None => true
  | Some (VStr _) => true
  | Some _ => false
  end.

(** An integer member, [default] when absent. *)
Definition int_member (v : option value) (default : Z) : Z :=
  match v with
  | Some (VInt n) => n
  | _ => default
  end.

(** An entry, or a free bike, of vehicle type [t]. *)
Definition of_type (t : string) (v : value) : bool :=
  match Spec.field v "vehicle_type_id" with
  | Some (VStr ty) => String.eqb ty t
  | _ => false
  end.

(** availableCount: the sum of the counts of the breakdown entries of the
    requested type, the aggregate count without a restriction. *)
Definition available (target : option string) (status : value) : Z :=
  match target with
  | Some t =>
      fold_right Z.add 0
        (map (fun v => int_member (Spec.field v "count") 0)
             (filter (of_type t) (Spec.breakdown status)))
  | None => int_member (Spec.field status "num_bikes_available") 0
  end.

(** The status filed under the identifier [id]. *)
Definition status_of (statuses : Py.dict) (id : string) : option value :=
  option_map snd
    (find (fun kv => match fst kv with
                     | VStr k => String.eqb k id
                     | _ => false
                     end) statuses).

Definition station_eligible (target : option string) (count : Z)
  (statuses : Py.dict) (id : string) : bool :=
  match status_of statuses id with
  | Some status =>
      on (Spec.field status "is_renting") && (count <=? available target status)
  | None => false
  end.

(** A status of the station-status feed, as far as bikes go. *)
Definition bike_status (s : value) : bool :=
  flag_or_absent (Spec.field s "is_renting")
  && Shape.int_or_absent (Spec.field s "num_bikes_available")
  && match Spec.field s "vehicle_types_available" with
     | None => true
     | Some (VList vs) => forallb Shape.typed_entry vs
     | Some _ => false
     end.

Definition string_key (k : value) : bool :=
  match k with
  | VStr _ => true
  | _ => false
  end.

(** The Candidate that stands for a station. *)
Definition station_candidate (w : env) (latitude longitude : float)
  (target : option string) (statuses : Py.dict) (item : value * value)
  : option candidate :=
  match fst item with
  | VStr id =>
      match status_of statuses id, Spec.field (snd item) "name",
            Spec.field (snd item) "lat", Spec.field (snd item) "lon" with
      | Some status, Some name, Some lat, Some lon =>
          match geodesic w latitude longitude lat lon with
          | Ok dist =>
              Some {| c_type := "Station"; c_name := name; c_distance := dist;
                      c_available := VInt (available target status);
                      c_lat := lat; c_lon := lon |}
          | Raise _ => None
          end
      | _, _, _, _ => None
      end
  | _ => None
  end.

Definition chosen (item : value * value) (eligible : string -> bool) : bool :=
  match fst item with
  | VStr id => eligible id
  | _ => false
  end.

(** The station Candidates of a query, in the order of the stations. *)
Definition station_candidates (w : env) (latitude longitude : float)
  (count : Z) (target : option string) (stations statuses : Py.dict)
  : list candidate :=
  flat_map (fun item =>
              if chosen item (station_eligible target count statuses) then
                match station_candidate w latitude longitude target statuses item with
                | Some c => [c]
                | None => []
                end
              else []) stations.

(** A free bike of the free-bike feed. *)
Definition typed_bike (b : value) : bool :=
  Feeds.is_dict b
  && flag_or_absent (Spec.field b "is_reserved")
  && flag_or_absent (Spec.field b "is_disabled")
  && text_or_absent (Spec.field b "bike_id").

(** Neither reserved nor disabled, and of the requested type. *)
Definition bike_eligible (target : option string) (bike : value) : bool :=
  negb (on (Spec.field bike "is_reserved"))
  && negb (on (Spec.field bike "is_disabled"))
  && match target with
     | Some t => of_type t bike
     | None => true
     end.

Definition bike_name (bike : value) : string :=
  "Free Bike ("
    ++ match Spec.field bike "bike_id" with
       | Some (VStr id) => id
       | _ => "unknown"
       end
    ++ ")".

(** The Candidate that stands for a free bike. *)
Definition free_bike_candidate (w : env) (latitude longitude : float)
  (bike : value) : option candidate :=
  match Spec.field bike "lat", Spec.field bike "lon" with
  | Some lat, Some lon =>
      match geodesic w latitude longitude lat lon with
      | Ok dist =>
          Some {| c_type := "Free Bike"; c_name := VStr (bike_name bike);
                  c_distance := dist; c_available := VInt 1;
                  c_lat := lat; c_lon := lon |}
      | Raise _ => None
      end
  | _, _ => None
  end.

(** The free-bike Candidates of a query: none unless [count] is 1. *)
Definition free_bike_candidates (w : env) (latitude longitude : float)
  (count : Z) (target : option string) (bikes : list value) : list candidate :=
  if (count =? 1)%Z then
    flat_map (fun bike =>
                if bike_eligible target bike then
                  match free_bike_candidate w latitude longitude bike with
                  | Some c => [c]
                  | None => []
                  end
                else []) bikes
  else [].

(** [text] is the decimal numeral of [n]. *)
Definition numeral (n : Z) (text : string) : Prop :=
  NilZero.int_of_string text = Some (Z.to_int n).

(** [text] shows the value [v]: the numeral of a number, the characters
    of a string, Python's names of the constants, and for a float or a
    container what the interpreter prints. *)
Definition shows (w : env) (v : value) (text : string) : Prop :=
  match v with
  | VInt n => numeral n text
  | VStr s => text = s
  | VNone => text = "None"
  | VBool true => text = "True"
  | VBool false => text = "False"
  | _ => text = repr w v
  end.

(** [text] is [q] rounded to one decimal place: a sign, the numeral of
    the whole part, a point and one digit, no further than half a tenth
    from [q]. *)
Definition one_decimal (q : Q) (text : string) : Prop :=
  exists (whole tenth : Z) (whole_text tenth_text : string),
    0 <= whole /\ 0 <= tenth < 10 /\
    (Qabs (inject_Z 10 * Qabs q - inject_Z (10 * whole + tenth)) <= 1 # 2)%Q /\
    numeral whole whole_text /\ numeral tenth tenth_text /\
    text = ((if Qle_bool 0 q then "" else "-")
            ++ whole_text ++ "." ++ tenth_text)%string.







End Gbfs.

(** ** The tools as tasks *)

(** [except Exception] catches the subclasses of [Exception] and nothing
    else of [BaseException]: a coroutine suspended at an [await] can have
    one of those thrown into it, [asyncio.CancelledError] when its task is
    cancelled.  Here the tools are read once more with their awaits in
    sight: [interrupts n] is what is thrown at the [n]-th await, if
    anything. *)

Module Task.

Inductive base_exn : Type :=
| CancelledError
| KeyboardInterrupt
| SystemExit.

Inductive outcome (A : Type) : Type :=
| Returns (a : A)
| Raises (e : exn)
| Escapes (b : base_exn).

Arguments Returns {A} a.
Arguments Raises {A} e.
Arguments Escapes {A} b.

Definition then_ {A B : Type} (o : outcome A) (k : A -> outcome B) : outcome B :=
  match o with
  | Returns a => k a
  | Raises e => Raises e
  | Escapes b => Escapes b
  end.

Definition of_result {A : Type} (r : result A) : outcome A :=
  match r with
  | Ok a => Returns a
  | Raise e => Raises e
  end.

(** [await] at the [n]-th suspension of the call. *)
Definition await {A : Type} (interrupts : nat -> option base_exn) (n : nat)
  (r : result A) : outcome A :=
  match interrupts n with
  | Some b => Escapes b
  | None => of_result r
  end.

(** Lines 62-135, after the feeds have arrived. *)
Definition bike_answer (w : env) (latitude longitude : float) (count : Z)
  (bike_type : option string) (fetched : value * value * value) : result string :=
  let '(station_info_data, station_status_data, free_bike_data) := fetched in
  info <- Py.getitem station_info_data "data" ;;
  info_stations <- Py.getitem info "stations" ;;
  stations <- by_station_id info_stations ;;
  stat <- Py.getitem station_status_data "data" ;;
  stat_stations <- Py.getitem stat "stations" ;;
  statuses <- by_station_id stat_stations ;;
  free <- Py.getitem free_bike_data "data" ;;
  free_bikes <- Py.getitem free "bikes" ;;
  candidates <- bike_candidates w latitude longitude count
                  (target_type_id w bike_type) stations statuses free_bikes ;;
  answer_bike w candidates.

(** Lines 51-135: the [try] block, with its four awaits. *)
Definition find_nearest_bike_try (interrupts : nat -> option base_exn) (w : env)
  (latitude longitude : float) (count : Z) (bike_type : option string)
  : outcome string :=
  then_ (await interrupts 0 (get_feed_url w 0 "station_information"))
    (fun station_info_url =>
  then_ (await interrupts 1 (get_feed_url w 1 "station_status"))
    (fun station_status_url =>
  then_ (await interrupts 2 (get_feed_url w 2 "free_bike_status"))
    (fun free_bike_status_url =>
  then_ (await interrupts 3
           (gather3 w (fetch_feed w 3 station_info_url)
                      (fetch_feed w 4 station_status_url)
                      (fetch_feed w 5 free_bike_status_url)))
    (fun fetched =>
  of_result (bike_answer w latitude longitude count bike_type fetched))))).

(** Lines 50-138: [except Exception as e] turns an [Exception] into text
    and lets everything else through. *)
Definition find_nearest_bike (interrupts : nat -> option base_exn) (w : env)
  (latitude longitude : float) (count : Z) (bike_type : option string)
  : outcome string :=
  match find_nearest_bike_try interrupts w latitude longitude count bike_type with
  | Returns text => Returns text
  | Raises e => Returns ("Error finding nearest bike: " ++ str_exn w e)%string
  | Escapes b => Escapes b
  end.

(** Lines 159-188, after the feeds have arrived. *)
Definition dock_answer (w : env) (latitude longitude : float) (count : Z)
  (fetched : value * value) : result string :=
  let '(station_info_data, station_status_data) := fetched in
  info <- Py.getitem station_info_data "data" ;;
  info_stations <- Py.getitem info "stations" ;;
  stations <- by_station_id info_stations ;;
  stat <- Py.getitem station_status_data "data" ;;
  stat_stations <- Py.getitem stat "stations" ;;
  statuses <- by_station_id stat_stations ;;
  candidates <- dock_candidates w latitude longitude count stations statuses ;;
  answer_dock w candidates.

Definition find_nearest_dock_spaces_try (interrupts : nat -> option base_exn)
  (w : env) (latitude longitude : float) (count : Z) : outcome string :=
  then_ (await interrupts 0 (get_feed_url w 0 "station_information"))
    (fun station_info_url =>
  then_ (await interrupts 1 (get_feed_url w 1 "station_status"))
    (fun station_status_url =>
  then_ (await interrupts 2
           (gather2 w (fetch_feed w 2 station_info_url)
                      (fetch_feed w 3 station_status_url)))
    (fun fetched =>
  of_result (dock_answer w latitude longitude count fetched)))).

Definition find_nearest_dock_spaces (interrupts : nat -> option base_exn)
  (w : env) (latitude longitude : float) (count : Z) : outcome string :=
  match find_nearest_dock_spaces_try interrupts w latitude longitude count with
  | Returns text => Returns text
  | Raises e => Returns ("Error finding nearest dock spaces: " ++ str_exn w e)%string
  | Escapes b => Escapes b
  end.



End Task.

(** ** Feeds that put the eligibility rules to work *)

Module Fleet.

Definition info : list value :=
  [Example.station "A" "Alpha" 37 (-122);
   Example.station "B" "Bravo" 38 (-122);
   Example.station "C" "Charlie" 37 (-121);
   Example.station "D" "Delta" 39 (-122)].

(** A has 2 + 3 electric bikes in two entries, B has 4, C has 9 and does
    not rent, D has no status. *)
Definition statuses : list value :=
  [Example.status "A" true true 9 3 [("2", 2); ("1", 4); ("2", 3)];
   Example.status "B" true true 9 3 [("2", 4); ("1", 5)];
   Example.status "C" false true 9 3 [("2", 9)]].

(** B1 and B5 are free electric bikes, B5 without a [bike_id]; B2 is a
    classic bike, B3 is reserved and B4 disabled. *)
Definition bikes : list value :=
  [Example.bike "B1" 37 (-122) false false "2";
   Example.bike "B2" 37 (-122) false false "1";
   Example.bike "B3" 37 (-122) true false "2";
   Example.bike "B4" 37 (-122) false true "2";
   VDict [("lat", VInt 38); ("lon", VInt (-122));
          ("is_reserved", VBool false); ("is_disabled", VBool false);
          ("vehicle_type_id", VStr "2")]].

Definition city : env :=
  Example.world (Example.stations_doc info) (Example.stations_doc statuses)
    (Example.bikes_doc bikes).

Definition station_index : Py.dict :=
  Eval vm_compute in
    match by_station_id (VList info) with Ok d => d | Raise _ => [] end.

Definition status_index : Py.dict :=
  Eval vm_compute in
    match by_station_id (VList statuses) with Ok d => d | Raise _ => [] end.

Definition alpha (available : Z) : candidate :=
  {| c_type := "Station"; c_name := VStr "Alpha"; c_distance := 0;
     c_available := VInt available; c_lat := VInt 37; c_lon := VInt (-122) |}.

Definition bravo (available : Z) : candidate :=
  {| c_type := "Station"; c_name := VStr "Bravo"; c_distance := 100000;
     c_available := VInt available; c_lat := VInt 38; c_lon := VInt (-122) |}.

Definition free_B1 : candidate :=
  {| c_type := "Free Bike"; c_name := VStr "Free Bike (B1)"; c_distance := 0;
     c_available := VInt 1; c_lat := VInt 37; c_lon := VInt (-122) |}.

Definition free_unknown : candidate :=
  {| c_type := "Free Bike"; c_name := VStr "Free Bike (unknown)";
     c_distance := 100000; c_available := VInt 1;
     c_lat := VInt 38; c_lon := VInt (-122) |}.

(** The label ["ebi" + KELVIN SIGN + "e"] in UTF-8, and an interpreter
    that lowers the sign to the letter k as Python does. *)
Definition kelvin_label : string :=
  "ebi" ++ String (ascii_of_nat 226) (String (ascii_of_nat 132)
             (String (ascii_of_nat 170) "e")).

Definition unicode_city : env :=
  {| http_get := http_get Example.city;
     geodesic := Example.grid_metric;
     race := 0;
     interp_msg := fun _ => "type error";
     repr := fun _ => "?";
     lower := fun s => if (s =? kelvin_label)%string then "ebike"
                       else AsciiText.lower s |}.

(** A query point between the stations of [Example.city], a little north
    of the middle: Market St is 49999.90... m away, the Ferry Building and
    bike B1 are 50000.09... m away. *)
Definition off_centre : float := 37.50000095367431640625%float.

Definition near_ferry_building : candidate :=
  {| c_type := "Station"; c_name := VStr "Ferry Building";
     c_distance := 1638403125 # 32768;
     c_available := VInt 5; c_lat := VInt 37; c_lon := VInt (-122) |}.

Definition near_market_st : candidate :=
  {| c_type := "Station"; c_name := VStr "Market St";
     c_distance := 1638396875 # 32768;
     c_available := VInt 9; c_lat := VInt 38; c_lon := VInt (-122) |}.

Definition near_B1 : candidate :=
  {| c_type := "Free Bike"; c_name := VStr "Free Bike (B1)";
     c_distance := 1638403125 # 32768;
     c_available := VInt 1; c_lat := VInt 37; c_lon := VInt (-122) |}.

Definition near_ferry_building_dock : dock_candidate :=
  {| d_name := VStr "Ferry Building"; d_distance := 1638403125 # 32768;
     d_available := VInt 3; d_lat := VInt 37; d_lon := VInt (-122) |}.

Definition near_depot_dock : dock_candidate :=
  {| d_name := VStr "Depot"; d_distance := 4915203125 # 32768;
     d_available := VInt 7; d_lat := VInt 37; d_lon := VInt (-121) |}.

End Fleet.

(** ** The exception monad *)

Lemma bind_Ok {A B : Type} (r : result A) (k : A -> result B) (b : B) :
  bind r k = Ok b -> exists a, r = Ok a /\ k a = Ok b.
Proof.
  destruct r as [a | e]; simpl; intros H.
  - exists a. split; [reflexivity | exact H].
  - discriminate H.
Qed.

Lemma bind_Raise {A B : Type} (r : result A) (k : A -> result B) (e : exn) :
  bind r k = Raise e ->
  r = Raise e \/ exists a, r = Ok a /\ k a = Raise e.
Proof.
  destruct r as [a | e']; simpl; intros H.
  - right. exists a. split; [reflexivity | exact H].
  - left. injection H as ->. reflexivity.
Qed.

(** Peel the successful prefix of a computation that returned. *)
Ltac bind_inv H :=
  let a := fresh "a" in
  let Ha := fresh "E" in
  apply bind_Ok in H; destruct H as (a & Ha & H).

(** ** Loops that fill [candidates] *)

Lemma kept_app {B : Type} (o1 o2 : list (option B)) :
  kept (o1 ++ o2) = kept o1 ++ kept o2.
Proof. unfold kept. apply flat_map_app. Qed.

Lemma collect_Ok {A B : Type} (body : A -> result (option B)) :
  forall xs acc l,
    collect body xs acc = Ok l ->
    exists outs,
      Forall2 (fun x o => body x = Ok o) xs outs /\ l = acc ++ kept outs.
Proof.
  induction xs as [| x xs IH]; simpl; intros acc l H.
  - exists []. split; [constructor |]. injection H as <-. simpl.
    now rewrite app_nil_r.
  - bind_inv H. apply IH in H. destruct H as (outs & F & ->).
    exists (a :: outs). split; [constructor; assumption |].
    destruct a as [y |]; simpl.
    + now rewrite <- app_assoc.
    + reflexivity.
Qed.

Lemma collect_complete {A B : Type} (body : A -> result (option B)) :
  forall xs outs acc,
    Forall2 (fun x o => body x = Ok o) xs outs ->
    collect body xs acc = Ok (acc ++ kept outs).
Proof.
  induction xs as [| x xs IH]; intros outs acc F; inversion F; subst; simpl.
  - now rewrite app_nil_r.
  - rewrite H1. simpl. rewrite (IH _ _ H3).
    destruct y; simpl; [now rewrite <- app_assoc | reflexivity].
Qed.

(** ** The sort and the entry it puts first *)

Lemma Qltb_lt (x y : Q) : Qltb x y = true <-> (x < y)%Q.
Proof.
  unfold Qltb. rewrite negb_true_iff. split; intros H.
  - apply Qnot_le_lt. intros L. apply Qle_bool_iff in L. congruence.
  - destruct (Qle_bool y x) eqn:E; [| reflexivity].
    apply Qle_bool_iff in E. exfalso. exact (Qlt_not_le _ _ H E).
Qed.

Lemma Qltb_ge (x y : Q) : Qltb x y = false <-> (y <= x)%Q.
Proof.
  unfold Qltb. rewrite negb_false_iff. apply Qle_bool_iff.
Qed.

Lemma first_nearest_le {A : Type} (key : A -> Q) (l : list A) (x : A) :
  Spec.first_nearest key l x -> forall c, In c l -> (key x <= key c)%Q.
Proof.
  intros (pre & post & -> & Hpre & Hpost) c Hc.
  apply in_app_or in Hc. destruct Hc as [Hc | [<- | Hc]].
  - apply Qlt_le_weak. now apply Hpre.
  - apply Qle_refl.
  - now apply Hpost.
Qed.

Lemma sort_by_head {A : Type} (key : A -> Q) :
  forall l, l <> [] ->
    exists x rest, sort_by key l = x :: rest /\ Spec.first_nearest key l x.
Proof.
  induction l as [| a l IH]; intros Hne; [congruence |].
  destruct l as [| b l'].
  - exists a, []. split; [reflexivity |].
    exists [], []. repeat split; intros c [].
  - destruct IH as (x & rest & Hs & Hx); [discriminate |].
    change (sort_by key (a :: b :: l'))
      with (insert_by key a (sort_by key (b :: l'))).
    rewrite Hs. simpl. destruct (Qltb (key x) (key a)) eqn:E.
    + exists x, (insert_by key a rest). split; [reflexivity |].
      destruct Hx as (pre & post & Hl & Hpre & Hpost).
      exists (a :: pre), post. rewrite Hl. repeat split; try assumption.
      intros c [<- | Hc]; [now apply Qltb_lt | now apply Hpre].
    + exists a, (x :: rest). split; [reflexivity |].
      exists [], (b :: l'). repeat split; [intros c [] |].
      intros c Hc. apply Qltb_ge in E.
      eapply Qle_trans; [exact E |].
      now apply (first_nearest_le key (b :: l') x).
Qed.

Lemma first_nearest_unique {A : Type} (key : A -> Q) (l : list A) (x y : A) :
  Spec.first_nearest key l x -> Spec.first_nearest key l y -> x = y.
Proof.
  intros (p1 & q1 & E1 & P1 & Q1) (p2 & q2 & E2 & P2 & Q2).
  revert p2 l E1 E2 P1 P2.
  induction p1 as [| a p1 IH]; intros p2 l E1 E2 P1 P2.
  - destruct p2 as [| b p2]; simpl in *; subst l.
    + now injection E2.
    + injection E2 as Hb Hq. exfalso.
      assert (Hy : In y q1) by (rewrite Hq; apply in_elt).
      apply Q1 in Hy. specialize (P2 b (or_introl eq_refl)).
      rewrite <- Hb in P2. exact (Qlt_not_le _ _ P2 Hy).
  - destruct p2 as [| b p2]; simpl in *; subst l.
    + injection E2 as Ha Hq. exfalso.
      assert (Hx : In x q2) by (rewrite <- Hq; apply in_elt).
      apply Q2 in Hx. specialize (P1 a (or_introl eq_refl)).
      rewrite Ha in P1. exact (Qlt_not_le _ _ P1 Hx).
    + injection E2 as Ha Hq.
      eapply (IH p2 (p1 ++ x :: q1)); [reflexivity | exact Hq | |].
      * intros c Hc. apply P1. now right.
      * intros c Hc. apply P2. now right.
Qed.

Lemma round_half_even_near (q : Q) :
  (Qabs (q - inject_Z (round_half_even q)) <= 1 # 2)%Q.
Proof.
  unfold round_half_even.
  pose proof (Qfloor_le q) as Hlo. pose proof (Qlt_floor q) as Hhi.
  rewrite inject_Z_plus in Hhi. change (inject_Z 1) with 1%Q in Hhi.
  apply Qabs_Qle_condition.
  destruct (Qcompare_spec (q - inject_Z (Qfloor q)) (1 # 2)) as [E | L | G].
  - destruct (Z.even (Qfloor q)).
    + lra.
    + rewrite inject_Z_plus. change (inject_Z 1) with 1%Q. lra.
  - lra.
  - rewrite inject_Z_plus. change (inject_Z 1) with 1%Q. lra.
Qed.

Lemma answer_bike_nearest (w : env) (candidates : list candidate) :
  candidates <> [] ->
  exists nearest,
    Spec.first_nearest c_distance candidates nearest /\
    answer_bike w candidates = Ok (render_bike w nearest).
Proof.
  intros Hne.
  destruct (sort_by_head c_distance candidates Hne) as (x & rest & Hs & Hx).
  exists x. split; [exact Hx |].
  unfold answer_bike. rewrite Hs.
  destruct candidates; [congruence | reflexivity].
Qed.

Lemma answer_dock_nearest (w : env) (candidates : list dock_candidate) :
  candidates <> [] ->
  exists nearest,
    Spec.first_nearest d_distance candidates nearest /\
    answer_dock w candidates = Ok (render_dock w nearest).
Proof.
  intros Hne.
  destruct (sort_by_head d_distance candidates Hne) as (x & rest & Hs & Hx).
  exists x. split; [exact Hx |].
  unfold answer_dock. rewrite Hs.
  destruct candidates; [congruence | reflexivity].
Qed.

(** ** The answer of a query that found candidates *)

(** C9. When no candidate is produced, [find_nearest_bike] returns the
    fixed no-match message and [find_nearest_dock_spaces] the fixed
    no-docks message; neither text begins with the error prefix of its
    operation. *)
Theorem no_candidate_message :
  forall (w : env) (latitude longitude : float) (count : Z)
         (bike_type : option string),
    (find_nearest_bike_candidates w latitude longitude count bike_type = Ok [] ->
     find_nearest_bike w latitude longitude count bike_type
       = "No bikes found matching criteria.") /\
    (find_nearest_dock_spaces_candidates w latitude longitude count = Ok [] ->
     find_nearest_dock_spaces w latitude longitude count
       = "No docks found with sufficient spaces.") /\
    prefix "Error finding nearest bike: "
           "No bikes found matching criteria." = false /\
    prefix "Error finding nearest dock spaces: "
           "No docks found with sufficient spaces." = false.
Proof.
  intros w latitude longitude count bike_type. repeat split.
  - intros H. unfold find_nearest_bike, find_nearest_bike_try.
    rewrite H. reflexivity.
  - intros H. unfold find_nearest_dock_spaces, find_nearest_dock_spaces_try.
    rewrite H. reflexivity.
Qed.

(** ** The join of the two station feeds *)

Lemma getitem_Ok (v : value) (k : string) (x : value) :
  Py.getitem v k = Ok x -> exists d, v = VDict d /\ Py.lookup k d = Some x.
Proof.
  destruct v; simpl; try discriminate. intros H. exists d.
  split; [reflexivity |].
  destruct (Py.lookup k d); [now injection H as -> | discriminate].
Qed.

Lemma getitem_field (v : value) (k : string) (x : value) :
  Py.getitem v k = Ok x -> Spec.field v k = Some x.
Proof.
  intros H. apply getitem_Ok in H. destruct H as (d & -> & H). exact H.
Qed.

Lemma get_Ok (v : value) (k : string) (default x : value) :
  Py.get v k default = Ok x ->
  exists d, v = VDict d /\
            x = match Py.lookup k d with Some y => y | None => default end.
Proof.
  destruct v; simpl; try discriminate. intros H. exists d.
  split; [reflexivity | now injection H].
Qed.

Lemma get_flag (v : value) (k : string) (x : value) :
  Py.get v k VNone = Ok x -> Py.truthy x = Spec.flag v k.
Proof.
  intros H. apply get_Ok in H. destruct H as (d & -> & ->).
  unfold Spec.flag, Spec.field. now destruct (Py.lookup k d).
Qed.

Lemma store_values (P : value -> Prop) (d : Py.dict) (k v : value) :
  Forall (fun kv => P (snd kv)) d -> P v ->
  Forall (fun kv => P (snd kv)) (Py.store d k v).
Proof.
  intros F Hv. induction F as [| [k' v'] t Hh Ht IH]; simpl.
  - constructor; [exact Hv | constructor].
  - destruct (Py.key_eq k' k); constructor; assumption.
Qed.

Lemma index_by_station_id_values :
  forall ss d d',
    Forall (fun kv => has_station_id (snd kv)) d ->
    index_by_station_id ss d = Ok d' ->
    Forall (fun kv => has_station_id (snd kv)) d'.
Proof.
  induction ss as [| s ss IH]; simpl; intros d d' F H.
  - now injection H as <-.
  - bind_inv H. bind_inv H. apply (IH a0 d'); [| exact H].
    apply getitem_Ok in E. destruct E as (fields & -> & Hk).
    unfold Py.setitem in E0.
    assert (a0 = Py.store d a (VDict fields)) as ->
      by (destruct a; try discriminate; now injection E0).
    apply store_values; [exact F |]. now exists fields, a.
Qed.

Lemma by_station_id_values (v : value) (d : Py.dict) :
  by_station_id v = Ok d -> Forall (fun kv => has_station_id (snd kv)) d.
Proof.
  unfold by_station_id. intros H. bind_inv H.
  apply (index_by_station_id_values a [] d); [constructor | exact H].
Qed.

Lemma has_station_id_truthy (v : value) : has_station_id v -> Py.truthy v = true.
Proof.
  intros (d & k & -> & H). destruct d; [discriminate | reflexivity].
Qed.

Lemma dict_get_joined (statuses : Py.dict) (station_id : value) :
  Py.dict_get statuses station_id =
  match Spec.joined statuses station_id with
  | Some status => status
  | None => VNone
  end.
Proof.
  unfold Spec.joined.
  induction statuses as [| [k v] t IH]; simpl; [reflexivity |].
  destruct (Py.key_eq k station_id); [reflexivity | exact IH].
Qed.

Lemma joined_In (statuses : Py.dict) (station_id status : value) :
  Spec.joined statuses station_id = Some status ->
  exists k, In (k, status) statuses.
Proof.
  unfold Spec.joined. intros H.
  destruct (find _ statuses) as [[k v] |] eqn:E; [| discriminate].
  injection H as <-. exists k. apply find_some in E. apply E.
Qed.

(** On a status dict built by [by_station_id], [not status] holds exactly
    for the stations that have no status. *)
Lemma status_missing (statuses : Py.dict) (station_id : value) :
  Forall (fun kv => has_station_id (snd kv)) statuses ->
  Py.truthy (Py.dict_get statuses station_id) =
  match Spec.joined statuses station_id with Some _ => true | None => false end.
Proof.
  intros F. rewrite dict_get_joined.
  destruct (Spec.joined statuses station_id) as [status |] eqn:E; [| reflexivity].
  apply joined_In in E. destruct E as (k & Hin).
  rewrite Forall_forall in F. apply has_station_id_truthy. exact (F _ Hin).
Qed.

(** ** availableCount *)

Lemma sum_matching_spec (t : string) :
  forall vs acc a,
    sum_matching t vs acc = Ok a ->
    Spec.sum (map Spec.count_of (filter (Spec.has_type t) vs)) acc = Ok a.
Proof.
  induction vs as [| v vs IH]; simpl; intros acc a H; [exact H |].
  bind_inv H. apply get_Ok in E. destruct E as (d & -> & ->).
  unfold Spec.has_type at 1. simpl.
  destruct (Py.lookup "vehicle_type_id" d) as [ty |]; simpl in *.
  - destruct (Py.eq_str ty t); simpl; [| now apply IH].
    unfold Spec.count_of at 1. simpl.
    destruct (Py.add acc _) as [s |]; simpl in *; [now apply IH | discriminate].
  - now apply IH.
Qed.

Lemma iter_breakdown (t : string) (status vta : value) (vs : list value) (a : value) :
  Spec.field status "vehicle_types_available" = Some vta ->
  Py.iter vta = Ok vs ->
  sum_matching t vs (VInt 0) = Ok a ->
  Spec.sum (map Spec.count_of (filter (Spec.has_type t) (Spec.breakdown status)))
    (VInt 0) = Ok a.
Proof.
  intros Hf Hi Hs. unfold Spec.breakdown. rewrite Hf.
  destruct vta; simpl in Hi; try discriminate; injection Hi as <-.
  - destruct s as [| c s]; simpl in *; [exact Hs | discriminate].
  - now apply sum_matching_spec.
  - destruct d as [| [k v] d]; simpl in *; [exact Hs | discriminate].
Qed.

Lemma available_bikes_spec (target : option string) (status a : value) :
  available_bikes target status = Ok a ->
  Spec.available_count target status = Ok a.
Proof.
  unfold available_bikes, Spec.available_count.
  destruct target as [t |]; intros H.
  - bind_inv H.
    destruct status as [| | | | s | l | d]; simpl in E; try discriminate;
      injection E as <-.
    + destruct (Py.contains _ s); simpl in H; [discriminate |].
      now injection H as <-.
    + destruct (existsb _ l); simpl in H; [discriminate |].
      now injection H as <-.
    + simpl in H.
      destruct (Py.lookup "vehicle_types_available" d) as [vta |] eqn:L.
      * bind_inv H. bind_inv H. injection E as <-.
        eapply iter_breakdown; [exact L | exact E0 | exact H].
      * injection H as <-. unfold Spec.breakdown. simpl. now rewrite L.
  - apply get_Ok in H. destruct H as (d & -> & ->). reflexivity.
Qed.

(** ** The two loop bodies of [find_nearest_bike] *)

Lemma bike_station_body_spec (w : env) (latitude longitude : float) (count : Z)
  (target : option string) (statuses : Py.dict) (item : value * value)
  (out : option candidate) :
  Forall (fun kv => has_station_id (snd kv)) statuses ->
  bike_station_body w latitude longitude count target statuses item = Ok out ->
  match out with
  | Some c =>
      Spec.station_eligible target count statuses (fst item) = true /\
      Spec.describes_station w latitude longitude target statuses item c
  | None => Spec.station_eligible target count statuses (fst item) = false
  end.
Proof.
  intros F H. destruct item as [station_id station].
  unfold bike_station_body in H. cbv beta iota zeta in H.
  unfold Spec.station_eligible, Spec.describes_station. simpl fst. simpl snd.
  rewrite (status_missing statuses station_id F) in H.
  rewrite dict_get_joined in H.
  destruct (Spec.joined statuses station_id) as [status |] eqn:J; simpl in H.
  2: { now injection H as <-. }
  bind_inv H. apply get_flag in E. rewrite <- E.
  destruct (Py.truthy a); simpl in H.
  2: { now injection H as <-. }
  bind_inv H. bind_inv H. apply available_bikes_spec in E0. rewrite E0.
  unfold Spec.at_least. rewrite E1.
  destruct a1; simpl in H.
  2: { now injection H as <-. }
  bind_inv H. bind_inv H. bind_inv H. bind_inv H. injection H as <-. simpl.
  apply getitem_field in E2, E3, E5.
  repeat split; try assumption. now exists status.
Qed.

Lemma free_bike_body_spec (w : env) (latitude longitude : float)
  (target : option string) (bike : value) (out : option candidate) :
  free_bike_body w latitude longitude target bike = Ok out ->
  match out with
  | Some c =>
      Spec.free_bike_eligible target bike = true /\
      Spec.describes_free_bike w latitude longitude bike c
  | None => Spec.free_bike_eligible target bike = false
  end.
Proof.
  intros H. unfold free_bike_body in H.
  unfold Spec.free_bike_eligible, Spec.describes_free_bike.
  bind_inv H. bind_inv H.
  assert (Hu : a0 = Spec.flag bike "is_reserved" || Spec.flag bike "is_disabled").
  { rewrite <- (get_flag _ _ _ E).
    destruct (Py.truthy a); [now injection E0 |].
    bind_inv E0. injection E0 as <-. now rewrite (get_flag _ _ _ E1). }
  rewrite <- negb_orb, <- Hu. destruct a0; simpl in H.
  { now injection H as <-. }
  bind_inv H.
  assert (Ht : a0 = negb match target with
                         | Some t => Spec.has_type t bike
                         | None => true
                         end).
  { destruct target as [t |]; [| now injection E1].
    bind_inv E1. injection E1 as <-.
    apply get_Ok in E2. destruct E2 as (d & -> & ->).
    unfold Spec.has_type. simpl. now destruct (Py.lookup "vehicle_type_id" d). }
  simpl. rewrite Ht in H.
  destruct (match target with Some t => Spec.has_type t bike | None => true end);
    simpl in H.
  2: { now injection H as <-. }
  bind_inv H. bind_inv H. bind_inv H. bind_inv H. injection H as <-. simpl.
  apply getitem_field in E2, E3. repeat split; assumption.
Qed.

(** [candidates] holds the outcomes of the station loop, then those of the
    free-bike loop, which runs only for [count == 1]. *)
Lemma bike_candidates_split (w : env) (latitude longitude : float) (count : Z)
  (target : option string) (stations statuses : Py.dict) (free_bikes : value)
  (candidates : list candidate) :
  bike_candidates w latitude longitude count target stations statuses free_bikes
    = Ok candidates ->
  exists souts bikes bouts,
    Forall2 (fun item o =>
               bike_station_body w latitude longitude count target statuses item
                 = Ok o) stations souts /\
    (if (count =? 1)%Z then Py.iter free_bikes = Ok bikes else bikes = []) /\
    Forall2 (fun bike o =>
               free_bike_body w latitude longitude target bike = Ok o)
            bikes bouts /\
    candidates = kept souts ++ kept bouts.
Proof.
  unfold bike_candidates. intros H. bind_inv H.
  apply collect_Ok in E. destruct E as (souts & Fs & ->). simpl.
  destruct (count =? 1)%Z.
  - bind_inv H. apply collect_Ok in H. destruct H as (bouts & Fb & ->).
    exists souts, a, bouts. repeat split; assumption.
  - injection H as <-. exists souts, [], [].
    repeat split; [assumption | constructor | now rewrite app_nil_r].
Qed.

Lemma kept_Forall {A B : Type} (body : A -> result (option B)) (P : B -> Prop) :
  (forall x c, body x = Ok (Some c) -> P c) ->
  forall xs outs,
    Forall2 (fun x o => body x = Ok o) xs outs -> Forall P (kept outs).
Proof.
  intros HP xs outs F. induction F as [| x o xs outs Hx F IH]; simpl.
  - constructor.
  - destruct o as [c |]; simpl; [| exact IH].
    constructor; [exact (HP x c Hx) | exact IH].
Qed.

Lemma bike_station_body_type (w : env) (latitude longitude : float) (count : Z)
  (target : option string) (statuses : Py.dict) (item : value * value)
  (c : candidate) :
  bike_station_body w latitude longitude count target statuses item = Ok (Some c) ->
  c_type c = "Station".
Proof.
  destruct item as [station_id station]. unfold bike_station_body.
  cbv beta iota zeta. intros H.
  destruct (negb _); [discriminate |]. bind_inv H.
  destruct (negb _); [discriminate |]. bind_inv H. bind_inv H.
  destruct a1; [| discriminate].
  bind_inv H. bind_inv H. bind_inv H. bind_inv H. now injection H as <-.
Qed.

Lemma free_bike_body_type (w : env) (latitude longitude : float)
  (target : option string) (bike : value) (c : candidate) :
  free_bike_body w latitude longitude target bike = Ok (Some c) ->
  c_type c = "Free Bike".
Proof.
  intros H. apply free_bike_body_spec in H. apply H.
Qed.

(** The station loop appends before the free-bike loop and the sort keeps
    that order on ties. *)
Lemma station_first_on_tie :
  forall (w : env) (latitude longitude : float) (count : Z)
         (target : option string) (stations statuses : Py.dict)
         (free_bikes : value) (candidates : list candidate) (s : candidate),
    bike_candidates w latitude longitude count target stations statuses free_bikes
      = Ok candidates ->
    In s candidates ->
    c_type s = "Station" ->
    (forall c, In c candidates -> (c_distance s <= c_distance c)%Q) ->
    exists nearest,
      answer_bike w candidates = Ok (render_bike w nearest) /\
      Spec.first_nearest c_distance candidates nearest /\
      c_type nearest = "Station".
Proof.
  intros w latitude longitude count target stations statuses free_bikes
    candidates s Hc Hin Hty Hmin.
  apply bike_candidates_split in Hc.
  destruct Hc as (souts & bikes & bouts & Fs & _ & Fb & ->).
  assert (Hd : Forall (fun c => c_type c = "Station") (kept souts)).
  { eapply kept_Forall; [| exact Fs]. intros x c. apply bike_station_body_type. }
  assert (Hf : Forall (fun c => c_type c = "Free Bike") (kept bouts)).
  { eapply kept_Forall; [| exact Fb]. intros x c. apply free_bike_body_type. }
  assert (Hs : In s (kept souts)).
  { apply in_app_or in Hin. destruct Hin as [H | H]; [exact H |].
    rewrite Forall_forall in Hf. apply Hf in H. congruence. }
  destruct (sort_by_head c_distance (kept souts)) as (x & rest & _ & Hx).
  { intros E. rewrite E in Hs. destruct Hs. }
  assert (Hfirst : Spec.first_nearest c_distance (kept souts ++ kept bouts) x).
  { pose proof (first_nearest_le _ _ _ Hx s Hs) as Hxs.
    destruct Hx as (pre & post & E & Hpre & Hpost).
    exists pre, (post ++ kept bouts). rewrite E, <- app_assoc. simpl.
    repeat split; [exact Hpre |].
    intros c Hc. apply in_app_or in Hc. destruct Hc as [Hc | Hc].
    - now apply Hpost.
    - eapply Qle_trans; [exact Hxs |]. apply Hmin. apply in_or_app. now right. }
  destruct (answer_bike_nearest w (kept souts ++ kept bouts)) as (y & Hy & Ha).
  { intros E. apply app_eq_nil in E. destruct E as [E _].
    rewrite E in Hs. destruct Hs. }
  rewrite (first_nearest_unique _ _ _ _ Hy Hfirst) in *.
  exists x. repeat split; try assumption.
  rewrite Forall_forall in Hd. apply Hd.
  destruct Hx as (pre & post & E & _). rewrite E. apply in_elt.
Qed.

(** ** Raising [count] *)

Lemma float_compare_int_mono (f : float) (c1 c2 : Z) :
  c1 <= c2 ->
  match Py.float_compare_int f c2 with Some Gt | Some Eq => true | _ => false end
    = true ->
  match Py.float_compare_int f c1 with Some Gt | Some Eq => true | _ => false end
    = true.
Proof.
  intros Hle. unfold Py.float_compare_int.
  destruct (Prim2SF f) as [s | s | | s m e]; try (intros; assumption).
  - destruct (Z.compare_spec 0 c2), (Z.compare_spec 0 c1);
      try reflexivity; try discriminate; lia.
  - set (n := if s then Z.neg m else Z.pos m).
    destruct (0 <=? e).
    + destruct (Z.compare_spec (n * 2 ^ e) c2), (Z.compare_spec (n * 2 ^ e) c1);
        try reflexivity; try discriminate; lia.
    + assert (Hp : 0 <= 2 ^ (- e)) by (apply Z.pow_nonneg; lia).
      pose proof (Z.mul_le_mono_nonneg_r c1 c2 (2 ^ (- e)) Hp Hle) as Hm.
      destruct (Z.compare_spec n (c2 * 2 ^ (- e))),
               (Z.compare_spec n (c1 * 2 ^ (- e)));
        try reflexivity; try discriminate; lia.
Qed.

Lemma ge_int_mono (v : value) (c1 c2 : Z) :
  c1 <= c2 -> Py.ge_int v c2 = Ok true -> Py.ge_int v c1 = Ok true.
Proof.
  intros Hle. destruct v; simpl; try discriminate; intros H;
    injection H as H; f_equal.
  - apply Z.leb_le in H. apply Z.leb_le. lia.
  - apply Z.leb_le in H. apply Z.leb_le. lia.
  - now apply (float_compare_int_mono f c1 c2).
Qed.

(** C8. Monotonicity in [count]: for the same feeds and query point and
    any [c1 <= c2], a station that is a candidate at [c2] is a candidate,
    and the same one, at [c1], in both operations. *)
Theorem candidates_monotone_in_count :
  forall (w : env) (latitude longitude : float) (c1 c2 : Z)
         (target : option string) (statuses : Py.dict) (item : value * value),
    c1 <= c2 ->
    (forall c,
        bike_station_body w latitude longitude c2 target statuses item = Ok (Some c) ->
        bike_station_body w latitude longitude c1 target statuses item = Ok (Some c)) /\
    (forall c,
        dock_station_body w latitude longitude c2 statuses item = Ok (Some c) ->
        dock_station_body w latitude longitude c1 statuses item = Ok (Some c)).
Proof.
  intros w latitude longitude c1 c2 target statuses [station_id station] Hle.
  split; intros c H.
  - unfold bike_station_body in *. cbv beta iota zeta in *.
    destruct (negb (Py.truthy (Py.dict_get statuses station_id)));
      [discriminate |].
    destruct (Py.get _ "is_renting" VNone) as [r |]; simpl in *; [| discriminate].
    destruct (negb (Py.truthy r)); [discriminate |].
    destruct (available_bikes target _) as [a |]; simpl in *; [| discriminate].
    destruct (Py.ge_int a c2) as [[|] |] eqn:G; simpl in H; try discriminate.
    rewrite (ge_int_mono a c1 c2 Hle G). exact H.
  - unfold dock_station_body in *. cbv beta iota zeta in *.
    destruct (negb (Py.truthy (Py.dict_get statuses station_id)));
      [discriminate |].
    destruct (Py.get _ "is_returning" VNone) as [r |]; simpl in *; [| discriminate].
    destruct (negb (Py.truthy r)); [discriminate |].
    destruct (Py.get _ "num_docks_available" (VInt 0)) as [a |]; simpl in *;
      [| discriminate].
    destruct (Py.ge_int a c2) as [[|] |] eqn:G; simpl in H; try discriminate.
    rewrite (ge_int_mono a c1 c2 Hle G). exact H.
Qed.

(** ** Failures *)

(** C5, as the code has it.  [fetch_feed] fails, with the exception of the
    HTTP client or of the JSON decoder, on a network error and on a body
    that does not parse, and returns no document then; it does not look at
    the status: the decoded body of any response is returned. *)
Theorem fetch_feed_outcomes :
  forall (w : env) (n : nat) (url : value),
    (forall e, http_get w n url = Raise e -> fetch_feed w n url = Raise e) /\
    (forall r e, http_get w n url = Ok r -> json r = Raise e ->
                 fetch_feed w n url = Raise e) /\
    (forall r doc, http_get w n url = Ok r -> json r = Ok doc ->
                   fetch_feed w n url = Ok doc).
Proof.
  intros w n url. unfold fetch_feed. repeat split.
  - intros e H. now rewrite H.
  - intros r e H J. rewrite H. exact J.
  - intros r doc H J. rewrite H. exact J.
Qed.

(** C5 as stated fails: a 503 response with a JSON body is returned as a
    document. *)
Lemma fetch_feed_ignores_status :
  http_get Example.outage 3 (VStr "https://feeds.example/station_status.json")
    = Ok {| status_code := 503; json := Ok Example.error_body |} /\
  fetch_feed Example.outage 3 (VStr "https://feeds.example/station_status.json")
    = Ok Example.error_body.
Proof. split; reflexivity. Qed.

(** ** The bike type label *)

Lemma prefix_app (sub s : string) :
  prefix sub s = true <-> exists post, s = (sub ++ post)%string.
Proof.
  revert s. induction sub as [| c sub IH]; intros s.
  - split; [intros _; now exists s | intros _; now destruct s].
  - destruct s as [| c' s']; simpl.
    + split; [discriminate | intros (post & H); discriminate].
    + destruct (ascii_dec c c') as [-> | Hne].
      * rewrite IH. split; intros (post & H); exists post.
        -- now rewrite H.
        -- now injection H.
      * split; [discriminate |]. intros (post & H). injection H as H _.
        congruence.
Qed.




(** ** Stations before free bikes *)

Lemma find_nearest_bike_candidates_inv (w : env) (latitude longitude : float)
  (count : Z) (bike_type : option string) (candidates : list candidate) :
  find_nearest_bike_candidates w latitude longitude count bike_type = Ok candidates ->
  exists stations statuses free_bikes,
    bike_candidates w latitude longitude count (target_type_id w bike_type)
      stations statuses free_bikes = Ok candidates.
Proof.
  unfold find_nearest_bike_candidates. intros H.
  bind_inv H. bind_inv H. bind_inv H. bind_inv H.
  destruct a2 as [[station_info_data station_status_data] free_bike_data].
  do 8 bind_inv H. now exists a4, a7, a9.
Qed.

(** C10. In [find_nearest_bike], at [count == 1] as at any other count,
    when a station candidate is at the minimal distance of all candidates
    the reported candidate is a station, also when a free bike is exactly
    as near: every station candidate is appended before any free bike and
    the sort keeps that order on ties. *)
Theorem station_reported_on_tie :
  forall (w : env) (latitude longitude : float) (count : Z)
         (bike_type : option string) (candidates : list candidate)
         (s : candidate),
    find_nearest_bike_candidates w latitude longitude count bike_type
      = Ok candidates ->
    In s candidates ->
    c_type s = "Station" ->
    (forall c, In c candidates -> (c_distance s <= c_distance c)%Q) ->
    exists nearest,
      find_nearest_bike w latitude longitude count bike_type
        = render_bike w nearest /\
      Spec.first_nearest c_distance candidates nearest /\
      c_type nearest = "Station".
Proof.
  intros w latitude longitude count bike_type candidates s Hc Hin Hty Hmin.
  destruct (find_nearest_bike_candidates_inv _ _ _ _ _ _ Hc)
    as (stations & statuses & free_bikes & Hb).
  destruct (station_first_on_tie _ _ _ _ _ _ _ _ _ _ Hb Hin Hty Hmin)
    as (nearest & Ha & Hn & Ht).
  exists nearest. repeat split; try assumption.
  unfold find_nearest_bike, find_nearest_bike_try. rewrite Hc. simpl.
  now rewrite Ha.
Qed.

(** ** A non-positive [count] *)

(** With [count <= 0] a renting station whose availableCount is a count
    (an int that is not negative) is eligible, whatever the count is. *)
Lemma nonpositive_count_bikes (target : option string) (count : Z)
  (statuses : Py.dict) (station_id status : value) (n : Z) :
  count <= 0 -> 0 <= n ->
  Spec.joined statuses station_id = Some status ->
  Spec.flag status "is_renting" = true ->
  Spec.available_count target status = Ok (VInt n) ->
  Spec.station_eligible target count statuses station_id = true.
Proof.
  intros Hc Hn J F A. unfold Spec.station_eligible. rewrite J, F, A. simpl.
  apply Z.leb_le. lia.
Qed.

(** In [find_nearest_dock_spaces] the test reads the dock count with a
    default and the entry reads it again without one: a returning station
    whose status has no [num_docks_available] passes the test when
    [count <= 0] and the second read raises. *)
Lemma dock_without_count (w : env) (latitude longitude : float) (count : Z)
  (statuses : Py.dict) (station_id station status lat lon name : value) (dist : Q) :
  count <= 0 ->
  Forall (fun kv => has_station_id (snd kv)) statuses ->
  Spec.joined statuses station_id = Some status ->
  Spec.flag status "is_returning" = true ->
  Spec.field status "num_docks_available" = None ->
  Py.getitem station "lat" = Ok lat ->
  Py.getitem station "lon" = Ok lon ->
  geodesic w latitude longitude lat lon = Ok dist ->
  Py.getitem station "name" = Ok name ->
  dock_station_body w latitude longitude count statuses (station_id, station)
    = Raise (KeyError "num_docks_available").
Proof.
  intros Hc F J Hf Hn Hlat Hlon Hd Hname.
  unfold dock_station_body.
  rewrite (status_missing statuses station_id F), dict_get_joined, J. simpl.
  pose proof (joined_In _ _ _ J) as (k & Hin).
  rewrite Forall_forall in F. destruct (F _ Hin) as (d & sid & E & _).
  simpl in E. subst status. unfold Spec.flag, Spec.field in Hf, Hn.
  simpl. destruct (Py.lookup "is_returning" d) as [r |]; [| discriminate].
  rewrite Hf, Hn. simpl.
  assert (Hle : (count <=? 0) = true) by (apply Z.leb_le; lia).
  rewrite Hle, Hlat. simpl. rewrite Hlon. simpl. rewrite Hd. simpl.
  rewrite Hname. reflexivity.
Qed.

(** C6, at the input where the code departs from it: station S1 has a
    joined status with [is_returning] true and no dock count, the query
    asks for [count = 0], and instead of a candidate the answer is the
    text of a [KeyError]. *)
Theorem dock_query_fails_without_count :
  Spec.joined [(VStr "S1", hd VNone Example.virtual_statuses)] (VStr "S1")
    = Some (hd VNone Example.virtual_statuses) /\
  Spec.flag (hd VNone Example.virtual_statuses) "is_returning" = true /\
  find_nearest_dock_spaces_candidates Example.virtual_city 37 (-122) 0
    = Raise (KeyError "num_docks_available") /\
  find_nearest_dock_spaces Example.virtual_city 37 (-122) 0
    = "Error finding nearest dock spaces: 'num_docks_available'".
Proof. repeat split; vm_compute; reflexivity. Qed.

(** ** The theorems at work on the example feed *)

Lemma fetch_feed_outcomes_witness :
  http_get Example.offline 3 (VStr "https://feeds.example/station_status.json")
    = Raise (LibError "All connection attempts failed") /\
  fetch_feed Example.offline 3 (VStr "https://feeds.example/station_status.json")
    = Raise (LibError "All connection attempts failed") /\
  http_get Example.outage 3 (VStr "https://feeds.example/station_status.json")
    = Ok {| status_code := 503; json := Ok Example.error_body |} /\
  fetch_feed Example.outage 3 (VStr "https://feeds.example/station_status.json")
    = Ok Example.error_body.
Proof.
  destruct (fetch_feed_outcomes Example.offline 3
              (VStr "https://feeds.example/station_status.json"))
    as (Hnet & _ & _).
  destruct (fetch_feed_outcomes Example.outage 3
              (VStr "https://feeds.example/station_status.json"))
    as (_ & _ & Hdoc).
  split; [reflexivity |]. split; [apply Hnet; reflexivity |].
  split; [reflexivity |].
  apply (Hdoc {| status_code := 503; json := Ok Example.error_body |});
    reflexivity.
Defined.

Lemma candidates_monotone_in_count_witness :
  1 <= 5 /\
  bike_station_body Example.city 37 (-122) 5 None Example.status_index
    (VStr "S1", Example.station "S1" "Ferry Building" 37 (-122))
    = Ok (Some Example.ferry_building) /\
  bike_station_body Example.city 37 (-122) 1 None Example.status_index
    (VStr "S1", Example.station "S1" "Ferry Building" 37 (-122))
    = Ok (Some Example.ferry_building) /\
  dock_station_body Example.city 37 (-122) 3 Example.status_index
    (VStr "S1", Example.station "S1" "Ferry Building" 37 (-122))
    = Ok (Some Example.ferry_building_dock) /\
  dock_station_body Example.city 37 (-122) 1 Example.status_index
    (VStr "S1", Example.station "S1" "Ferry Building" 37 (-122))
    = Ok (Some Example.ferry_building_dock).
Proof.
  assert (H15 : 1 <= 5) by lia. assert (H13 : 1 <= 3) by lia.
  destruct (candidates_monotone_in_count Example.city 37 (-122) 1 5 None
              Example.status_index
              (VStr "S1", Example.station "S1" "Ferry Building" 37 (-122)) H15)
    as [Hb _].
  destruct (candidates_monotone_in_count Example.city 37 (-122) 1 3 None
              Example.status_index
              (VStr "S1", Example.station "S1" "Ferry Building" 37 (-122)) H13)
    as [_ Hd].
  split; [exact H15 |]. split; [vm_compute; reflexivity |].
  split; [apply Hb; vm_compute; reflexivity |].
  split; [vm_compute; reflexivity |].
  apply Hd; vm_compute; reflexivity.
Defined.

Lemma no_candidate_message_witness :
  find_nearest_bike_candidates Example.city 37 (-122) 100 None = Ok [] /\
  find_nearest_bike Example.city 37 (-122) 100 None
    = "No bikes found matching criteria." /\
  find_nearest_dock_spaces_candidates Example.city 37 (-122) 100 = Ok [] /\
  find_nearest_dock_spaces Example.city 37 (-122) 100
    = "No docks found with sufficient spaces.".
Proof.
  destruct (no_candidate_message Example.city 37 (-122) 100 None)
    as (Hb & Hd & _).
  split; [vm_compute; reflexivity |]. split; [apply Hb; vm_compute; reflexivity |].
  split; [vm_compute; reflexivity |]. apply Hd; vm_compute; reflexivity.
Defined.

Lemma station_reported_on_tie_witness :
  find_nearest_bike_candidates Example.city 37 (-122) 1 None
    = Ok Example.city_candidates /\
  In Example.ferry_building Example.city_candidates /\
  In Example.bike_B1 Example.city_candidates /\
  (c_distance Example.ferry_building == c_distance Example.bike_B1)%Q /\
  c_type Example.ferry_building = "Station" /\
  (forall c, In c Example.city_candidates ->
             (c_distance Example.ferry_building <= c_distance c)%Q) /\
  (exists nearest,
      find_nearest_bike Example.city 37 (-122) 1 None
        = render_bike Example.city nearest /\
      Spec.first_nearest c_distance Example.city_candidates nearest /\
      c_type nearest = "Station").
Proof.
  assert (Hmin : forall c, In c Example.city_candidates ->
                           (c_distance Example.ferry_building <= c_distance c)%Q).
  { intros c [<- | [<- | [<- | []]]]; unfold Qle; simpl; lia. }
  split; [vm_compute; reflexivity |]. split; [now left |].
  split; [right; right; now left |]. split; [reflexivity |].
  split; [reflexivity |]. split; [exact Hmin |].
  apply (station_reported_on_tie Example.city 37 (-122) 1 None
           Example.city_candidates Example.ferry_building);
    [vm_compute; reflexivity | now left | reflexivity | exact Hmin].
Defined.

(** ** Feed discovery *)

Lemma find_feed_first_match (feed_name : string) (pre post : list value)
  (feed : value) :
  Forall (fun f => Feeds.is_dict f = true /\ Feeds.named feed_name f = false) pre ->
  Feeds.is_dict feed = true ->
  Feeds.named feed_name feed = true ->
  find_feed (pre ++ feed :: post) feed_name = Ok (Feeds.url_of feed).
Proof.
  intros Hpre Hd Hn. induction Hpre as [| f pre [Hf Hu] _ IH]; simpl.
  - destruct feed; try discriminate. unfold Feeds.named in Hn. simpl in *.
    destruct (Py.lookup "name" d) as [v |]; [| discriminate].
    now rewrite Hn.
  - destruct f; try discriminate. unfold Feeds.named in Hu. simpl in *.
    destruct (Py.lookup "name" d) as [v |]; [now rewrite Hu | exact IH].
Qed.

Lemma find_feed_no_match (feed_name : string) (feeds : list value) :
  Forall (fun f => Feeds.is_dict f = true /\ Feeds.named feed_name f = false)
         feeds ->
  find_feed feeds feed_name
    = Raise (ValueError ("Feed " ++ feed_name ++ " not found")).
Proof.
  intros H. induction H as [| f feeds [Hf Hu] _ IH]; simpl; [reflexivity |].
  destruct f; try discriminate. unfold Feeds.named in Hu. simpl in *.
  destruct (Py.lookup "name" d) as [v |]; [now rewrite Hu | exact IH].
Qed.

Lemma get_feed_url_advertised (w : env) (n : nat) (feed_name : string)
  (r : response) (data : value) (feeds : list value) :
  http_get w n (VStr GBFS_DISCOVERY_URL) = Ok r ->
  json r = Ok data ->
  Feeds.advertised data = Some feeds ->
  get_feed_url w n feed_name = find_feed feeds feed_name.
Proof.
  intros Hr Hj Ha. unfold get_feed_url. rewrite Hr. simpl. rewrite Hj. simpl.
  destruct data as [| | | | | | top]; try discriminate. simpl in *.
  destruct (Py.lookup "data" top) as [[| | | | | | d] |]; try discriminate;
    simpl in *.
  2: { now injection Ha as <-. }
  destruct (Py.lookup "en" d) as [[| | | | | | en] |]; try discriminate;
    simpl in *.
  2: { now injection Ha as <-. }
  destruct (Py.lookup "feeds" en) as [[| | | | | fs |] |]; try discriminate;
    simpl in *; now injection Ha as <-.
Qed.

(** [get_feed_url] returns the [url] member of the first descriptor named
    [feed_name], [None] when that descriptor has no such member; what
    follows the descriptor in the list is not looked at. *)
Theorem get_feed_url_first_match :
  forall (w : env) (n : nat) (feed_name : string) (r : response)
         (data : value) (pre post : list value) (feed : value),
    http_get w n (VStr GBFS_DISCOVERY_URL) = Ok r ->
    json r = Ok data ->
    Feeds.advertised data = Some (pre ++ feed :: post) ->
    Forall (fun f => Feeds.is_dict f = true /\ Feeds.named feed_name f = false)
           pre ->
    Feeds.is_dict feed = true ->
    Feeds.named feed_name feed = true ->
    get_feed_url w n feed_name = Ok (Feeds.url_of feed).
Proof.
  intros w n feed_name r data pre post feed Hr Hj Ha Hpre Hd Hn.
  rewrite (get_feed_url_advertised w n feed_name r data _ Hr Hj Ha).
  now apply find_feed_first_match.
Qed.

(** [get_feed_url] raises [ValueError("Feed <name> not found")] when no
    advertised descriptor carries the name, and so when the document has no
    ["data"], no locale ["en"] or no ["feeds"] member: an absent level is
    an empty list of feeds, not a [KeyError]. *)
Theorem get_feed_url_not_found :
  forall (w : env) (n : nat) (feed_name : string) (r : response)
         (data : value) (feeds : list value),
    http_get w n (VStr GBFS_DISCOVERY_URL) = Ok r ->
    json r = Ok data ->
    Feeds.advertised data = Some feeds ->
    Forall (fun f => Feeds.is_dict f = true /\ Feeds.named feed_name f = false)
           feeds ->
    get_feed_url w n feed_name
      = Raise (ValueError ("Feed " ++ feed_name ++ " not found")).
Proof.
  intros w n feed_name r data feeds Hr Hj Ha Hf.
  rewrite (get_feed_url_advertised w n feed_name r data _ Hr Hj Ha).
  now apply find_feed_no_match.
Qed.

(** ** Failures before the candidates *)

(** When the first discovery request fails, each tool answers with its
    error prefix and the description of that failure. *)
Theorem discovery_failure_reported :
  forall (w : env) (latitude longitude : float) (count : Z)
         (bike_type : option string) (e : exn),
    http_get w 0 (VStr GBFS_DISCOVERY_URL) = Raise e ->
    find_nearest_bike w latitude longitude count bike_type
      = ("Error finding nearest bike: " ++ str_exn w e)%string /\
    find_nearest_dock_spaces w latitude longitude count
      = ("Error finding nearest dock spaces: " ++ str_exn w e)%string.
Proof.
  intros w latitude longitude count bike_type e H. split.
  - unfold find_nearest_bike, find_nearest_bike_try,
      find_nearest_bike_candidates, get_feed_url.
    rewrite H. reflexivity.
  - unfold find_nearest_dock_spaces, find_nearest_dock_spaces_try,
      find_nearest_dock_spaces_candidates, get_feed_url.
    rewrite H. reflexivity.
Qed.

(** [find_nearest_bike] resolves the free-bike feed before anything else is
    fetched: when the discovery document does not advertise it, the answer
    is the error text of the missing feed for every [count], also for the
    counts at which free bikes are not scanned. *)
Theorem free_bike_feed_required :
  forall (w : env) (latitude longitude : float) (count : Z)
         (bike_type : option string) (u1 u2 : value) (r : response)
         (data : value) (feeds : list value),
    get_feed_url w 0 "station_information" = Ok u1 ->
    get_feed_url w 1 "station_status" = Ok u2 ->
    http_get w 2 (VStr GBFS_DISCOVERY_URL) = Ok r ->
    json r = Ok data ->
    Feeds.advertised data = Some feeds ->
    Forall (fun f => Feeds.is_dict f = true
                     /\ Feeds.named "free_bike_status" f = false) feeds ->
    find_nearest_bike w latitude longitude count bike_type
      = "Error finding nearest bike: Feed free_bike_status not found".
Proof.
  intros w latitude longitude count bike_type u1 u2 r data feeds
    H1 H2 Hr Hj Ha Hf.
  pose proof (get_feed_url_advertised w 2 "free_bike_status" r data feeds
                Hr Hj Ha) as H3.
  rewrite (find_feed_no_match _ _ Hf) in H3.
  unfold find_nearest_bike, find_nearest_bike_try, find_nearest_bike_candidates.
  rewrite H1. simpl. rewrite H2. simpl. rewrite H3. reflexivity.
Qed.

Lemma first_failure_In (w : env) (e : exn) (es : list exn) :
  In (first_failure w e es) (e :: es).
Proof.
  unfold first_failure. apply nth_In.
  change (List.length (e :: es)) with (S (List.length es)).
  apply Nat.mod_upper_bound. discriminate.
Qed.

Lemma raised_In (rs : list (result value)) (e : exn) :
  In e (raised rs) -> In (Raise e) rs.
Proof.
  unfold raised. rewrite in_flat_map. intros (r & Hr & He).
  destruct r as [a | e']; [destruct He |].
  destruct He as [-> | []]. exact Hr.
Qed.

Lemma gather3_Raise (w : env) (r1 r2 r3 : result value) (e : exn) :
  gather3 w r1 r2 r3 = Raise e -> In (Raise e) [r1; r2; r3].
Proof.
  unfold gather3. intros H. apply raised_In.
  destruct (raised [r1; r2; r3]) as [| e0 es] eqn:E.
  - destruct r1, r2, r3; simpl in E; discriminate.
  - assert (Hf : Raise (A := value * value * value) (first_failure w e0 es)
                 = Raise e)
      by (destruct r1, r2, r3; try exact H; simpl in E; discriminate).
    injection Hf as <-. apply first_failure_In.
Qed.

Lemma gather3_fails (w : env) (r1 r2 r3 : result value) :
  (exists e, In (Raise e) [r1; r2; r3]) ->
  exists e, gather3 w r1 r2 r3 = Raise e.
Proof.
  intros (e & H). unfold gather3.
  destruct r1 as [a | e1], r2 as [b | e2], r3 as [c | e3];
    simpl; try (eexists; reflexivity).
  exfalso. simpl in H. intuition discriminate.
Qed.

(** No partial answer: when any of the three fetches of
    [find_nearest_bike] fails, the tool answers with the error text of one
    of the fetches that failed, whatever the other feeds hold. *)
Theorem failed_fetch_fails_query :
  forall (w : env) (latitude longitude : float) (count : Z)
         (bike_type : option string) (u1 u2 u3 : value),
    get_feed_url w 0 "station_information" = Ok u1 ->
    get_feed_url w 1 "station_status" = Ok u2 ->
    get_feed_url w 2 "free_bike_status" = Ok u3 ->
    (exists e, In (Raise e)
                  [fetch_feed w 3 u1; fetch_feed w 4 u2; fetch_feed w 5 u3]) ->
    exists e,
      In (Raise e) [fetch_feed w 3 u1; fetch_feed w 4 u2; fetch_feed w 5 u3] /\
      find_nearest_bike w latitude longitude count bike_type
        = ("Error finding nearest bike: " ++ str_exn w e)%string.
Proof.
  intros w latitude longitude count bike_type u1 u2 u3 H1 H2 H3 Hf.
  destruct (gather3_fails w _ _ _ Hf) as (e & Hg).
  exists e. split; [now apply (gather3_Raise w) |].
  unfold find_nearest_bike, find_nearest_bike_try, find_nearest_bike_candidates.
  rewrite H1. simpl. rewrite H2. simpl. rewrite H3. simpl. rewrite Hg.
  reflexivity.
Qed.

(** ** The dict comprehensions *)

Lemma store_keys (P : value -> Prop) (d : Py.dict) (k v : value) :
  Forall (fun kv => P (fst kv)) d -> P k ->
  Forall (fun kv => P (fst kv)) (Py.store d k v).
Proof.
  intros F Hk. induction F as [| [k' v'] t Hh Ht IH]; simpl.
  - constructor; [exact Hk | constructor].
  - destruct (Py.key_eq k' k); constructor; assumption.
Qed.

Lemma store_distinct (d : Py.dict) (k v : value) :
  Feeds.distinct_keys d -> Feeds.distinct_keys (Py.store d k v).
Proof.
  induction d as [| [k' v'] t IH]; simpl; intros H.
  - split; [constructor | exact I].
  - destruct H as [Hk Ht]. destruct (Py.key_eq k' k) eqn:E; simpl.
    + split; assumption.
    + split; [| now apply IH].
      apply (store_keys (fun x => Py.key_eq k' x = false)); assumption.
Qed.

Lemma store_filed (d : Py.dict) (fields : list (string * value)) (k : value) :
  Forall Feeds.filed d ->
  Py.lookup "station_id" fields = Some k ->
  Forall Feeds.filed (Py.store d k (VDict fields)).
Proof.
  intros F Hk. induction F as [| [k' v'] t Hh Ht IH]; simpl.
  - constructor; [| constructor]. exists fields, k. now repeat split; try left.
  - destruct (Py.key_eq k' k) eqn:E; constructor; try assumption.
    exists fields, k. repeat split; try assumption. now right.
Qed.

Lemma index_by_station_id_filed :
  forall ss d d',
    Feeds.distinct_keys d -> Forall Feeds.filed d ->
    index_by_station_id ss d = Ok d' ->
    Feeds.distinct_keys d' /\ Forall Feeds.filed d'.
Proof.
  induction ss as [| s ss IH]; simpl; intros d d' Hd Hf H.
  - injection H as <-. now split.
  - bind_inv H. bind_inv H.
    apply getitem_Ok in E. destruct E as (fields & -> & Hk).
    unfold Py.setitem in E0.
    assert (a0 = Py.store d a (VDict fields)) as ->
      by (destruct a; try discriminate; now injection E0).
    apply (IH (Py.store d a (VDict fields)) d');
      [now apply store_distinct | now apply store_filed | exact H].
Qed.

(** The dict [{s["station_id"]: s for s in ...}] never holds two equal
    keys, and each of its values is a record that carries a [station_id]:
    the key itself, or an identifier equal to the key. *)
Theorem by_station_id_keys :
  forall (v : value) (d : Py.dict),
    by_station_id v = Ok d ->
    Feeds.distinct_keys d /\
    Forall (fun kv =>
              exists fields id,
                snd kv = VDict fields /\
                Py.lookup "station_id" fields = Some id /\
                (id = fst kv \/ Py.key_eq (fst kv) id = true)) d.
Proof.
  intros v d H. unfold by_station_id in H. bind_inv H.
  apply (index_by_station_id_filed a [] d); [exact I | constructor | exact H].
Qed.

Lemma key_eq_str (k' : value) (k : string) :
  Py.key_eq k' (VStr k) = match k' with VStr x => (x =? k)%string | _ => false end.
Proof. destruct k' as [| [|] | | | | |]; reflexivity. Qed.

Lemma store_get_str (d : Py.dict) (k id : string) (v : value) :
  Py.dict_get (Py.store d (VStr k) v) (VStr id)
    = if (k =? id)%string then v else Py.dict_get d (VStr id).
Proof.
  induction d as [| [k' v'] t IH].
  - cbn [Py.store Py.dict_get]. rewrite key_eq_str.
    now destruct (k =? id)%string.
  - cbn [Py.store]. rewrite key_eq_str.
    destruct k' as [| | | | x | |];
      try (cbn [Py.dict_get]; rewrite key_eq_str; exact IH).
    destruct (String.eqb_spec x k) as [-> | Hxk];
      cbn [Py.dict_get]; rewrite !key_eq_str.
    + now destruct (k =? id)%string.
    + destruct (String.eqb_spec x id) as [-> | Hxi].
      * destruct (String.eqb_spec k id) as [-> | _]; [congruence | reflexivity].
      * exact IH.
Qed.

Lemma find_snoc {A : Type} (p : A -> bool) (l : list A) (x : A) :
  find p (l ++ [x]) =
  match find p l with
  | Some y => Some y
  | None => if p x then Some x else None
  end.
Proof.
  induction l as [| a l IH]; simpl; [reflexivity |].
  destruct (p a); [reflexivity | exact IH].
Qed.

Lemma index_by_station_id_lookup :
  forall ss d,
    Forall (fun s => Feeds.string_id s = true) ss ->
    exists d',
      index_by_station_id ss d = Ok d' /\
      forall id,
        Py.dict_get d' (VStr id) =
        match find (Feeds.has_id id) (rev ss) with
        | Some s => s
        | None => Py.dict_get d (VStr id)
        end.
Proof.
  induction ss as [| s ss IH]; intros d F.
  - exists d. split; [reflexivity |]. reflexivity.
  - inversion F as [| s' ss' Hs Hss]; subst.
    unfold Feeds.string_id, Spec.field in Hs.
    destruct s as [| | | | | | fields]; try discriminate.
    destruct (Py.lookup "station_id" fields) as [[| | | | k | |] |] eqn:L;
      try discriminate.
    destruct (IH (Py.store d (VStr k) (VDict fields)) Hss) as (d' & Hd' & Hget).
    exists d'. split.
    + simpl. rewrite L. simpl. exact Hd'.
    + intros id. rewrite Hget. simpl rev. rewrite find_snoc.
      destruct (find (Feeds.has_id id) (rev ss)); [reflexivity |].
      rewrite store_get_str. unfold Feeds.has_id, Spec.field. rewrite L.
      simpl. now destruct (k =? id)%string.
Qed.

(** On a feed whose records carry string identifiers the comprehension
    never raises, and looking an identifier up gives the last record of
    the feed filed under it, [None] when there is none. *)
Theorem by_station_id_lookup :
  forall (ss : list value),
    Forall (fun s => Feeds.string_id s = true) ss ->
    exists d,
      by_station_id (VList ss) = Ok d /\
      forall id,
        Py.dict_get d (VStr id) =
        match find (Feeds.has_id id) (rev ss) with
        | Some s => s
        | None => VNone
        end.
Proof.
  intros ss F.
  destruct (index_by_station_id_lookup ss [] F) as (d & Hd & Hget).
  exists d. split; [exact Hd | exact Hget].
Qed.

(** ** The loop of [find_nearest_dock_spaces] *)



(** ** What a loop body reads *)

(** The record of a station is read only once the station has passed the
    test: a station that is skipped is skipped whatever its record holds,
    and a station that gives a candidate raises [KeyError('lat')] as soon
    as its record has no ["lat"]. *)
Theorem station_record_read_when_eligible :
  forall (w : env) (latitude longitude : float) (count : Z)
         (target : option string) (statuses : Py.dict)
         (station_id station : value),
    (bike_station_body w latitude longitude count target statuses
       (station_id, station) = Ok None ->
     forall other,
       bike_station_body w latitude longitude count target statuses
         (station_id, other) = Ok None) /\
    (dock_station_body w latitude longitude count statuses
       (station_id, station) = Ok None ->
     forall other,
       dock_station_body w latitude longitude count statuses
         (station_id, other) = Ok None) /\
    (forall c fields,
        bike_station_body w latitude longitude count target statuses
          (station_id, station) = Ok (Some c) ->
        Py.lookup "lat" fields = None ->
        bike_station_body w latitude longitude count target statuses
          (station_id, VDict fields) = Raise (KeyError "lat")) /\
    (forall c fields,
        dock_station_body w latitude longitude count statuses
          (station_id, station) = Ok (Some c) ->
        Py.lookup "lat" fields = None ->
        dock_station_body w latitude longitude count statuses
          (station_id, VDict fields) = Raise (KeyError "lat")).
Proof.
  intros w latitude longitude count target statuses station_id station.
  unfold bike_station_body, dock_station_body. cbv beta iota zeta.
  destruct (negb (Py.truthy (Py.dict_get statuses station_id))).
  { repeat split; try reflexivity; discriminate. }
  repeat split.
  - intros H other.
    destruct (Py.get _ "is_renting" VNone) as [r |]; simpl in *; [| discriminate].
    destruct (negb (Py.truthy r)); [reflexivity |].
    destruct (available_bikes target _) as [a |]; simpl in *; [| discriminate].
    destruct (Py.ge_int a count) as [[|] |]; simpl in *;
      [| reflexivity | discriminate].
    do 4 bind_inv H. discriminate.
  - intros H other.
    destruct (Py.get _ "is_returning" VNone) as [r |]; simpl in *; [| discriminate].
    destruct (negb (Py.truthy r)); [reflexivity |].
    destruct (Py.get _ "num_docks_available" (VInt 0)) as [a |]; simpl in *;
      [| discriminate].
    destruct (Py.ge_int a count) as [[|] |]; simpl in *;
      [| reflexivity | discriminate].
    do 5 bind_inv H. discriminate.
  - intros c fields H L.
    destruct (Py.get _ "is_renting" VNone) as [r |]; simpl in *; [| discriminate].
    destruct (negb (Py.truthy r)); [discriminate |].
    destruct (available_bikes target _) as [a |]; simpl in *; [| discriminate].
    destruct (Py.ge_int a count) as [[|] |]; simpl in *; try discriminate.
    now rewrite L.
  - intros c fields H L.
    destruct (Py.get _ "is_returning" VNone) as [r |]; simpl in *; [| discriminate].
    destruct (negb (Py.truthy r)); [discriminate |].
    destruct (Py.get _ "num_docks_available" (VInt 0)) as [a |]; simpl in *;
      [| discriminate].
    destruct (Py.ge_int a count) as [[|] |]; simpl in *; try discriminate.
    now rewrite L.
Qed.

(** ** Raising [count] over a whole query *)

Lemma ge_int_defined (a : value) (c1 c2 : Z) (b : bool) :
  Py.ge_int a c1 = Ok b -> exists b', Py.ge_int a c2 = Ok b'.
Proof.
  destruct a; simpl; try discriminate; intros _; eexists; reflexivity.
Qed.

Lemma bike_station_body_shrinks (w : env) (latitude longitude : float)
  (c1 c2 : Z) (target : option string) (statuses : Py.dict)
  (item : value * value) (o1 : option candidate) :
  c1 <= c2 ->
  bike_station_body w latitude longitude c1 target statuses item = Ok o1 ->
  exists o2,
    bike_station_body w latitude longitude c2 target statuses item = Ok o2 /\
    (o2 = None \/ o2 = o1).
Proof.
  intros Hle. destruct item as [station_id station].
  unfold bike_station_body. cbv beta iota zeta.
  destruct (negb (Py.truthy (Py.dict_get statuses station_id))).
  { intros H. exists None. split; [reflexivity | now left]. }
  destruct (Py.get _ "is_renting" VNone) as [r |]; simpl; [| discriminate].
  destruct (negb (Py.truthy r)).
  { intros H. exists None. split; [reflexivity | now left]. }
  destruct (available_bikes target _) as [a |]; simpl; [| discriminate].
  destruct (Py.ge_int a c1) as [b1 |] eqn:G1; simpl; [| discriminate].
  destruct (ge_int_defined a c1 c2 b1 G1) as (b2 & G2). rewrite G2. simpl.
  destruct b2.
  - rewrite (ge_int_mono a c1 c2 Hle G2) in G1. injection G1 as <-.
    intros H. exists o1. split; [exact H | now right].
  - intros _. exists None. split; [reflexivity | now left].
Qed.

Lemma dock_station_body_shrinks (w : env) (latitude longitude : float)
  (c1 c2 : Z) (statuses : Py.dict) (item : value * value)
  (o1 : option dock_candidate) :
  c1 <= c2 ->
  dock_station_body w latitude longitude c1 statuses item = Ok o1 ->
  exists o2,
    dock_station_body w latitude longitude c2 statuses item = Ok o2 /\
    (o2 = None \/ o2 = o1).
Proof.
  intros Hle. destruct item as [station_id station].
  unfold dock_station_body. cbv beta iota zeta.
  destruct (negb (Py.truthy (Py.dict_get statuses station_id))).
  { intros H. exists None. split; [reflexivity | now left]. }
  destruct (Py.get _ "is_returning" VNone) as [r |]; simpl; [| discriminate].
  destruct (negb (Py.truthy r)).
  { intros H. exists None. split; [reflexivity | now left]. }
  destruct (Py.get _ "num_docks_available" (VInt 0)) as [a |]; simpl;
    [| discriminate].
  destruct (Py.ge_int a c1) as [b1 |] eqn:G1; simpl; [| discriminate].
  destruct (ge_int_defined a c1 c2 b1 G1) as (b2 & G2). rewrite G2. simpl.
  destruct b2.
  - rewrite (ge_int_mono a c1 c2 Hle G2) in G1. injection G1 as <-.
    intros H. exists o1. split; [exact H | now right].
  - intros _. exists None. split; [reflexivity | now left].
Qed.

Lemma collect_shrinks {A B : Type} (b1 b2 : A -> result (option B)) :
  (forall x o1, b1 x = Ok o1 ->
                exists o2, b2 x = Ok o2 /\ (o2 = None \/ o2 = o1)) ->
  forall xs l1,
    collect b1 xs [] = Ok l1 ->
    exists l2,
      collect b2 xs [] = Ok l2 /\ incl l2 l1 /\
      (List.length l2 <= List.length l1)%nat.
Proof.
  intros Hb xs l1 H. apply collect_Ok in H. destruct H as (outs1 & F & ->).
  simpl.
  assert (Hex : exists outs2,
             Forall2 (fun x o => b2 x = Ok o) xs outs2 /\
             incl (kept outs2) (kept outs1) /\
             (List.length (kept outs2) <= List.length (kept outs1))%nat).
  { induction F as [| x o1 xs outs1 Hx F IH].
    - exists []. repeat split; [constructor | apply incl_refl | apply Nat.le_refl].
    - destruct IH as (outs2 & F2 & Hi & Hl).
      destruct (Hb x o1 Hx) as (o2 & H2 & Ho).
      exists (o2 :: outs2). split; [constructor; assumption |].
      destruct Ho as [-> | ->]; simpl.
      + destruct o1 as [c |]; simpl.
        * split; [now apply incl_tl | lia].
        * split; assumption.
      + destruct o1 as [c |]; simpl.
        * split; [| lia]. apply incl_cons; [now left | now apply incl_tl].
        * split; assumption. }
  destruct Hex as (outs2 & F2 & Hi & Hl).
  exists (kept outs2). split; [| split; assumption].
  now rewrite (collect_complete b2 xs outs2 [] F2).
Qed.

(** Raising [count] never turns a query that produced candidates into one
    that raises: for [c1 <= c2], when the station loop returns at [c1] it
    returns at [c2], with candidates that are among those of [c1]; for
    [find_nearest_dock_spaces] this holds of the whole query. *)
Theorem raising_count_keeps_success :
  forall (w : env) (latitude longitude : float) (c1 c2 : Z),
    c1 <= c2 ->
    (forall target stations statuses l1,
        collect (bike_station_body w latitude longitude c1 target statuses)
          stations [] = Ok l1 ->
        exists l2,
          collect (bike_station_body w latitude longitude c2 target statuses)
            stations [] = Ok l2 /\
          incl l2 l1 /\ (List.length l2 <= List.length l1)%nat) /\
    (forall l1,
        find_nearest_dock_spaces_candidates w latitude longitude c1 = Ok l1 ->
        exists l2,
          find_nearest_dock_spaces_candidates w latitude longitude c2 = Ok l2 /\
          incl l2 l1 /\ (List.length l2 <= List.length l1)%nat).
Proof.
  intros w latitude longitude c1 c2 Hle. split.
  - intros target stations statuses l1. apply collect_shrinks.
    intros x o1. now apply bike_station_body_shrinks.
  - intros l1. unfold find_nearest_dock_spaces_candidates.
    destruct (get_feed_url w 0 "station_information") as [u1 |]; simpl;
      [| discriminate].
    destruct (get_feed_url w 1 "station_status") as [u2 |]; simpl;
      [| discriminate].
    destruct (gather2 w _ _) as [[d1 d2] |]; simpl; [| discriminate].
    destruct (Py.getitem d1 "data") as [i |]; simpl; [| discriminate].
    destruct (Py.getitem i "stations") as [si |]; simpl; [| discriminate].
    destruct (by_station_id si) as [stations |]; simpl; [| discriminate].
    destruct (Py.getitem d2 "data") as [s |]; simpl; [| discriminate].
    destruct (Py.getitem s "stations") as [ss |]; simpl; [| discriminate].
    destruct (by_station_id ss) as [statuses |]; simpl; [| discriminate].
    unfold dock_candidates. apply collect_shrinks.
    intros x o1. now apply dock_station_body_shrinks.
Qed.

(** ** The sort *)

Lemma insert_by_perm {A : Type} (key : A -> Q) (x : A) (l : list A) :
  Permutation (insert_by key x l) (x :: l).
Proof.
  induction l as [| y t IH]; simpl; [apply Permutation_refl |].
  destruct (Qltb (key y) (key x)); [| apply Permutation_refl].
  eapply perm_trans; [apply perm_skip; exact IH | apply perm_swap].
Qed.

Lemma insert_by_sorted {A : Type} (key : A -> Q) (x : A) (l : list A) :
  StronglySorted (fun a b => (key a <= key b)%Q) l ->
  StronglySorted (fun a b => (key a <= key b)%Q) (insert_by key x l).
Proof.
  intros S. induction S as [| y t St IH Hy]; simpl.
  - constructor; constructor.
  - destruct (Qltb (key y) (key x)) eqn:E.
    + constructor; [exact IH |].
      eapply Permutation_Forall;
        [apply Permutation_sym; apply insert_by_perm |].
      constructor; [| exact Hy]. apply Qlt_le_weak. now apply Qltb_lt.
    + apply Qltb_ge in E. constructor; [now constructor |].
      constructor; [exact E |].
      eapply Forall_impl; [| exact Hy]. intros z Hz.
      eapply Qle_trans; eassumption.
Qed.

Lemma insert_by_filter {A : Type} (key : A -> Q) (k : Q) (x : A) (l : list A) :
  filter (fun a => Qeq_bool (key a) k) (insert_by key x l)
    = filter (fun a => Qeq_bool (key a) k) (x :: l).
Proof.
  induction l as [| y t IH]; [reflexivity |].
  cbn [insert_by]. destruct (Qltb (key y) (key x)) eqn:E; [| reflexivity].
  cbn [filter] in *. rewrite IH.
  destruct (Qeq_bool (key x) k) eqn:Ex; [| reflexivity].
  destruct (Qeq_bool (key y) k) eqn:Ey; [| reflexivity].
  apply Qeq_bool_iff in Ex, Ey. apply Qltb_lt in E. exfalso.
  rewrite Ex, Ey in E. exact (Qlt_irrefl _ E).
Qed.

(** [candidates.sort(key=...)] leaves the same candidates, in
    non-decreasing order of distance, and candidates at one distance in the
    order they were appended in. *)
Theorem sort_by_stable_sorted :
  forall (A : Type) (key : A -> Q) (l : list A),
    Permutation (sort_by key l) l /\
    StronglySorted (fun a b => (key a <= key b)%Q) (sort_by key l) /\
    (forall k,
        filter (fun a => Qeq_bool (key a) k) (sort_by key l)
          = filter (fun a => Qeq_bool (key a) k) l).
Proof.
  intros A key l. induction l as [| x l (IHp & IHs & IHf)].
  - repeat split; [apply perm_nil | constructor].
  - change (sort_by key (x :: l)) with (insert_by key x (sort_by key l)).
    repeat split.
    + eapply perm_trans; [apply insert_by_perm | now apply perm_skip].
    + now apply insert_by_sorted.
    + intros k. rewrite insert_by_filter. cbn [filter]. now rewrite IHf.
Qed.

(** ** Telling an answer from an error *)

Lemma prefix_append (p s : string) : prefix p (p ++ s) = true.
Proof. apply prefix_app. now exists s. Qed.

Lemma answer_bike_text (w : env) (candidates : list candidate) (text : string) :
  answer_bike w candidates = Ok text ->
  prefix "Error finding nearest bike: " text = false.
Proof.
  unfold answer_bike. destruct candidates as [| c l].
  - intros H. now injection H as <-.
  - destruct (sort_by c_distance (c :: l)); [discriminate |].
    intros H. now injection H as <-.
Qed.

Lemma answer_dock_text (w : env) (candidates : list dock_candidate)
  (text : string) :
  answer_dock w candidates = Ok text ->
  prefix "Error finding nearest dock spaces: " text = false.
Proof.
  unfold answer_dock. destruct candidates as [| c l].
  - intros H. now injection H as <-.
  - destruct (sort_by d_distance (c :: l)); [discriminate |].
    intros H. now injection H as <-.
Qed.

(** The text a tool returns begins with its error prefix exactly when its
    [try] block raised: no answer and no "nothing found" message can be
    taken for an error, whatever names the feeds hold. *)
Theorem error_prefix_iff_raised :
  forall (w : env) (latitude longitude : float) (count : Z)
         (bike_type : option string),
    (prefix "Error finding nearest bike: "
            (find_nearest_bike w latitude longitude count bike_type) = true <->
     exists e,
       find_nearest_bike_try w latitude longitude count bike_type = Raise e) /\
    (prefix "Error finding nearest dock spaces: "
            (find_nearest_dock_spaces w latitude longitude count) = true <->
     exists e,
       find_nearest_dock_spaces_try w latitude longitude count = Raise e).
Proof.
  intros w latitude longitude count bike_type. split.
  - unfold find_nearest_bike.
    destruct (find_nearest_bike_try w latitude longitude count bike_type)
      as [text | e] eqn:T.
    + split; [| intros (e & He); discriminate].
      unfold find_nearest_bike_try in T. bind_inv T.
      rewrite (answer_bike_text w a text T). discriminate.
    + split; [intros _; now exists e | intros _; apply prefix_append].
  - unfold find_nearest_dock_spaces.
    destruct (find_nearest_dock_spaces_try w latitude longitude count)
      as [text | e] eqn:T.
    + split; [| intros (e & He); discriminate].
      unfold find_nearest_dock_spaces_try in T. bind_inv T.
      rewrite (answer_dock_text w a text T). discriminate.
    + split; [intros _; now exists e | intros _; apply prefix_append].
Qed.

(** ** Missing members *)

(** A returning station whose status has no [num_docks_available] is
    skipped without an error by a query for at least one dock, and makes
    the loop raise [KeyError('num_docks_available')] when [count <= 0]:
    the test reads the count with a default, the entry without one. *)
Theorem dock_count_read_twice :
  forall (w : env) (latitude longitude : float) (count : Z)
         (status_feed : value) (statuses : Py.dict)
         (station_id station status : value),
    by_station_id status_feed = Ok statuses ->
    Spec.joined statuses station_id = Some status ->
    Spec.flag status "is_returning" = true ->
    Spec.field status "num_docks_available" = None ->
    (0 < count ->
     dock_station_body w latitude longitude count statuses (station_id, station)
       = Ok None) /\
    (count <= 0 ->
     forall lat lon name dist,
       Py.getitem station "lat" = Ok lat ->
       Py.getitem station "lon" = Ok lon ->
       geodesic w latitude longitude lat lon = Ok dist ->
       Py.getitem station "name" = Ok name ->
       dock_station_body w latitude longitude count statuses (station_id, station)
         = Raise (KeyError "num_docks_available")).
Proof.
  intros w latitude longitude count status_feed statuses station_id station
    status Hs J Hf Hn.
  apply by_station_id_values in Hs. split.
  - intros Hc. unfold dock_station_body.
    rewrite (status_missing statuses station_id Hs), dict_get_joined, J. simpl.
    pose proof (joined_In _ _ _ J) as (k & Hin).
    pose proof Hs as F. rewrite Forall_forall in F.
    destruct (F _ Hin) as (d & sid & E & _). simpl in E. subst status.
    unfold Spec.flag, Spec.field in Hf, Hn. simpl.
    destruct (Py.lookup "is_returning" d) as [r |]; [| discriminate].
    rewrite Hf, Hn. simpl.
    assert (Hgt : (count <=? 0) = false) by (apply Z.leb_gt; lia).
    now rewrite Hgt.
  - intros Hc lat lon name dist Hlat Hlon Hd Hname.
    now apply (dock_without_count w latitude longitude count statuses
                 station_id station status lat lon name dist).
Qed.

(** A free bike that becomes a candidate is named after its [bike_id],
    and "Free Bike (unknown)" when it has none. *)
Theorem free_bike_name :
  forall (w : env) (latitude longitude : float) (target : option string)
         (bike : value) (c : candidate),
    free_bike_body w latitude longitude target bike = Ok (Some c) ->
    c_name c =
    VStr ("Free Bike ("
            ++ str w (match Spec.field bike "bike_id" with
                      | Some id => id
                      | None => VStr "unknown"
                      end)
            ++ ")").
Proof.
  intros w latitude longitude target bike c H. unfold free_bike_body in H.
  bind_inv H. bind_inv H. destruct a0; [discriminate |].
  bind_inv H. destruct a0; [discriminate |].
  do 4 bind_inv H. injection H as <-. simpl.
  apply get_Ok in E5. destruct E5 as (d & -> & ->). reflexivity.
Qed.

(** ** Statuses without a station *)




(** ** The further theorems at work on the example feeds *)

Lemma get_feed_url_first_match_witness :
  http_get Example.city 1 (VStr GBFS_DISCOVERY_URL)
    = Ok {| status_code := 200; json := Ok Example.discovery |} /\
  Feeds.advertised Example.discovery
    = Some ([Example.feed "station_information"
               "https://feeds.example/station_information.json"]
            ++ Example.feed "station_status"
                 "https://feeds.example/station_status.json"
            :: [Example.feed "free_bike_status"
                  "https://feeds.example/free_bike_status.json"]) /\
  get_feed_url Example.city 1 "station_status"
    = Ok (VStr "https://feeds.example/station_status.json").
Proof.
  split; [reflexivity |]. split; [reflexivity |].
  apply (get_feed_url_first_match Example.city 1 "station_status"
           {| status_code := 200; json := Ok Example.discovery |}
           Example.discovery
           [Example.feed "station_information"
              "https://feeds.example/station_information.json"]
           [Example.feed "free_bike_status"
              "https://feeds.example/free_bike_status.json"]
           (Example.feed "station_status"
              "https://feeds.example/station_status.json"));
    try reflexivity.
  repeat constructor.
Defined.

Lemma get_feed_url_not_found_witness :
  http_get (Scenario.answering Scenario.french) 0 (VStr GBFS_DISCOVERY_URL)
    = Ok {| status_code := 200; json := Ok Scenario.french |} /\
  Feeds.advertised Scenario.french = Some [] /\
  get_feed_url (Scenario.answering Scenario.french) 0 "station_information"
    = Raise (ValueError "Feed station_information not found").
Proof.
  split; [reflexivity |]. split; [reflexivity |].
  apply (get_feed_url_not_found (Scenario.answering Scenario.french) 0
           "station_information"
           {| status_code := 200; json := Ok Scenario.french |}
           Scenario.french []); try reflexivity.
  constructor.
Defined.

Lemma discovery_failure_reported_witness :
  http_get Example.offline 0 (VStr GBFS_DISCOVERY_URL)
    = Raise (LibError "All connection attempts failed") /\
  find_nearest_bike Example.offline 37 (-122) 1 None
    = "Error finding nearest bike: All connection attempts failed" /\
  find_nearest_dock_spaces Example.offline 37 (-122) 1
    = "Error finding nearest dock spaces: All connection attempts failed".
Proof.
  split; [reflexivity |].
  apply (discovery_failure_reported Example.offline 37 (-122) 1 None
           (LibError "All connection attempts failed")).
  reflexivity.
Defined.

Lemma free_bike_feed_required_witness :
  get_feed_url (Scenario.answering Scenario.docked_only) 0 "station_information"
    = Ok (VStr "https://feeds.example/station_information.json") /\
  get_feed_url (Scenario.answering Scenario.docked_only) 1 "station_status"
    = Ok (VStr "https://feeds.example/station_status.json") /\
  find_nearest_bike (Scenario.answering Scenario.docked_only) 37 (-122) 5 None
    = "Error finding nearest bike: Feed free_bike_status not found".
Proof.
  split; [reflexivity |]. split; [reflexivity |].
  apply (free_bike_feed_required (Scenario.answering Scenario.docked_only)
           37 (-122) 5 None
           (VStr "https://feeds.example/station_information.json")
           (VStr "https://feeds.example/station_status.json")
           {| status_code := 200; json := Ok Scenario.docked_only |}
           Scenario.docked_only
           [Example.feed "station_information"
              "https://feeds.example/station_information.json";
            Example.feed "station_status"
              "https://feeds.example/station_status.json"]);
    try reflexivity.
  repeat constructor.
Defined.

Lemma failed_fetch_fails_query_witness :
  fetch_feed Scenario.free_feed_down 5
    (VStr "https://feeds.example/free_bike_status.json")
    = Raise (LibError "Read timed out") /\
  (exists e,
      In (Raise e)
         [fetch_feed Scenario.free_feed_down 3
            (VStr "https://feeds.example/station_information.json");
          fetch_feed Scenario.free_feed_down 4
            (VStr "https://feeds.example/station_status.json");
          fetch_feed Scenario.free_feed_down 5
            (VStr "https://feeds.example/free_bike_status.json")] /\
      find_nearest_bike Scenario.free_feed_down 37 (-122) 5 None
        = ("Error finding nearest bike: "
             ++ str_exn Scenario.free_feed_down e)%string).
Proof.
  split; [reflexivity |].
  apply (failed_fetch_fails_query Scenario.free_feed_down 37 (-122) 5 None
           (VStr "https://feeds.example/station_information.json")
           (VStr "https://feeds.example/station_status.json")
           (VStr "https://feeds.example/free_bike_status.json"));
    try reflexivity.
  exists (LibError "Read timed out"). right. right. left. reflexivity.
Defined.

Lemma by_station_id_keys_witness :
  by_station_id (VList Scenario.reissued) = Ok Scenario.reissued_index /\
  Feeds.distinct_keys Scenario.reissued_index /\
  Forall (fun kv =>
            exists fields id,
              snd kv = VDict fields /\
              Py.lookup "station_id" fields = Some id /\
              (id = fst kv \/ Py.key_eq (fst kv) id = true))
         Scenario.reissued_index.
Proof.
  split; [reflexivity |].
  apply (by_station_id_keys (VList Scenario.reissued) Scenario.reissued_index).
  reflexivity.
Defined.

Lemma by_station_id_lookup_witness :
  Forall (fun s => Feeds.string_id s = true) Scenario.reissued /\
  (exists d,
      by_station_id (VList Scenario.reissued) = Ok d /\
      forall id,
        Py.dict_get d (VStr id) =
        match find (Feeds.has_id id) (rev Scenario.reissued) with
        | Some s => s
        | None => VNone
        end).
Proof.
  assert (H : Forall (fun s => Feeds.string_id s = true) Scenario.reissued)
    by (repeat constructor).
  split; [exact H |].
  apply (by_station_id_lookup Scenario.reissued H).
Defined.


Lemma station_record_read_when_eligible_witness :
  bike_station_body Example.city 37 (-122) 1 None Example.status_index
    (VStr "S3", Example.station "S3" "Depot" 37 (-121)) = Ok None /\
  bike_station_body Example.city 37 (-122) 1 None Example.status_index
    (VStr "S3", VDict []) = Ok None /\
  bike_station_body Example.city 37 (-122) 1 None Example.status_index
    (VStr "S1", Example.station "S1" "Ferry Building" 37 (-122))
    = Ok (Some Example.ferry_building) /\
  bike_station_body Example.city 37 (-122) 1 None Example.status_index
    (VStr "S1", VDict [("name", VStr "Ferry Building")])
    = Raise (KeyError "lat").
Proof.
  destruct (station_record_read_when_eligible Example.city 37 (-122) 1 None
              Example.status_index (VStr "S3")
              (Example.station "S3" "Depot" 37 (-121))) as (Hskip & _).
  destruct (station_record_read_when_eligible Example.city 37 (-122) 1 None
              Example.status_index (VStr "S1")
              (Example.station "S1" "Ferry Building" 37 (-122)))
    as (_ & _ & Hlat & _).
  split; [vm_compute; reflexivity |].
  split; [apply Hskip; vm_compute; reflexivity |].
  split; [vm_compute; reflexivity |].
  apply (Hlat Example.ferry_building); [vm_compute; reflexivity | reflexivity].
Defined.

Lemma raising_count_keeps_success_witness :
  1 <= 5 /\
  find_nearest_dock_spaces_candidates Example.city 37 (-122) 1
    = Ok Example.city_docks /\
  (exists l2,
      find_nearest_dock_spaces_candidates Example.city 37 (-122) 5 = Ok l2 /\
      incl l2 Example.city_docks /\
      (List.length l2 <= List.length Example.city_docks)%nat).
Proof.
  assert (H : 1 <= 5) by lia.
  destruct (raising_count_keeps_success Example.city 37 (-122) 1 5 H)
    as [_ Hd].
  split; [exact H |]. split; [vm_compute; reflexivity |].
  apply Hd. vm_compute; reflexivity.
Defined.

Lemma dock_count_read_twice_witness :
  by_station_id (VList Example.virtual_statuses) = Ok Scenario.virtual_index /\
  Spec.joined Scenario.virtual_index (VStr "S1")
    = Some (hd VNone Example.virtual_statuses) /\
  Spec.flag (hd VNone Example.virtual_statuses) "is_returning" = true /\
  Spec.field (hd VNone Example.virtual_statuses) "num_docks_available" = None /\
  dock_station_body Example.virtual_city 37 (-122) 1 Scenario.virtual_index
    (VStr "S1", Example.station "S1" "Ferry Building" 37 (-122)) = Ok None /\
  dock_station_body Example.virtual_city 37 (-122) 0 Scenario.virtual_index
    (VStr "S1", Example.station "S1" "Ferry Building" 37 (-122))
    = Raise (KeyError "num_docks_available").
Proof.
  destruct (dock_count_read_twice Example.virtual_city 37 (-122) 1
              (VList Example.virtual_statuses) Scenario.virtual_index
              (VStr "S1") (Example.station "S1" "Ferry Building" 37 (-122))
              (hd VNone Example.virtual_statuses)
              eq_refl eq_refl eq_refl eq_refl) as [Hpos _].
  destruct (dock_count_read_twice Example.virtual_city 37 (-122) 0
              (VList Example.virtual_statuses) Scenario.virtual_index
              (VStr "S1") (Example.station "S1" "Ferry Building" 37 (-122))
              (hd VNone Example.virtual_statuses)
              eq_refl eq_refl eq_refl eq_refl) as [_ Hzero].
  do 4 (split; [reflexivity |]).
  split; [apply Hpos; lia |].
  apply (Hzero (Z.le_refl 0) (VInt 37) (VInt (-122)) (VStr "Ferry Building") 0%Q);
    vm_compute; reflexivity.
Defined.

Lemma free_bike_name_witness :
  free_bike_body Example.city 37 (-122) None Scenario.anonymous_bike
    = Ok (Some {| c_type := "Free Bike"; c_name := VStr "Free Bike (unknown)";
                  c_distance := 0; c_available := VInt 1;
                  c_lat := VInt 37; c_lon := VInt (-122) |}) /\
  VStr "Free Bike (unknown)" =
  VStr ("Free Bike ("
          ++ str Example.city
               (match Spec.field Scenario.anonymous_bike "bike_id" with
                | Some id => id
                | None => VStr "unknown"
                end)
          ++ ")").
Proof.
  split; [vm_compute; reflexivity |].
  apply (free_bike_name Example.city 37 (-122) None Scenario.anonymous_bike
           {| c_type := "Free Bike"; c_name := VStr "Free Bike (unknown)";
              c_distance := 0; c_available := VInt 1;
              c_lat := VInt 37; c_lon := VInt (-122) |}).
  vm_compute; reflexivity.
Defined.


(** ** Feeds of the GBFS shape never raise *)

Lemma field_getitem (v : value) (k : string) (x : value) :
  Spec.field v k = Some x -> Py.getitem v k = Ok x.
Proof.
  destruct v; simpl; try discriminate. intros H. now rewrite H.
Qed.

Lemma sum_matching_typed (t : string) :
  forall vs a,
    forallb Shape.typed_entry vs = true ->
    exists n, sum_matching t vs (VInt a) = Ok (VInt n).
Proof.
  induction vs as [| v vs IH]; intros a H.
  - now exists a.
  - simpl in H. apply andb_true_iff in H. destruct H as [Hv Hvs].
    unfold Shape.typed_entry in Hv. apply andb_true_iff in Hv.
    destruct Hv as [Hd Hc]. destruct v as [| | | | | | d]; try discriminate.
    cbn [sum_matching Py.get bind].
    destruct (Py.eq_str _ t); [| now apply IH].
    simpl in Hc. destruct (Py.lookup "count" d) as [[| | n | | | |] |];
      try discriminate; simpl; now apply IH.
Qed.

Lemma available_bikes_typed (target : option string)
  (d : list (string * value)) :
  Shape.typed_status (VDict d) = true ->
  exists n, available_bikes target (VDict d) = Ok (VInt n).
Proof.
  unfold Shape.typed_status. intros H.
  apply andb_true_iff in H. destruct H as [H Hv].
  apply andb_true_iff in H. destruct H as [Hb _].
  unfold available_bikes. destruct target as [t |]; simpl in *.
  - destruct (Py.lookup "vehicle_types_available" d) as [vta |]; simpl.
    + destruct vta as [| | | | | vs |]; try discriminate. simpl.
      now apply sum_matching_typed.
    + now exists 0.
  - destruct (Py.lookup "num_bikes_available" d) as [[| | n | | | |] |];
      try discriminate; eexists; reflexivity.
Qed.

Lemma joined_typed (statuses : Py.dict) (station_id status : value) :
  Forall (fun kv => has_station_id (snd kv)) statuses ->
  Forall (fun kv => Shape.typed_status (snd kv) = true) statuses ->
  Spec.joined statuses station_id = Some status ->
  exists d, status = VDict d /\ Shape.typed_status (VDict d) = true.
Proof.
  intros F T J. apply joined_In in J. destruct J as (k & Hin).
  rewrite Forall_forall in F, T.
  destruct (F _ Hin) as (d & id & E & _). simpl in E. subst status.
  exists d. split; [reflexivity | exact (T _ Hin)].
Qed.

Lemma bike_station_body_total (w : env) (latitude longitude : float)
  (count : Z) (target : option string) (statuses : Py.dict)
  (item : value * value) :
  Forall (fun kv => has_station_id (snd kv)) statuses ->
  Forall (fun kv => Shape.typed_status (snd kv) = true) statuses ->
  Shape.station_record w latitude longitude (snd item) ->
  exists o,
    bike_station_body w latitude longitude count target statuses item = Ok o.
Proof.
  intros F T ((lat & lon & dist & Hlat & Hlon & Hd) & name & Hname).
  destruct item as [station_id station]. simpl in *.
  unfold bike_station_body.
  rewrite (status_missing statuses station_id F), dict_get_joined.
  destruct (Spec.joined statuses station_id) as [status |] eqn:J; simpl.
  2: { now exists None. }
  destruct (joined_typed _ _ _ F T J) as (d & -> & Ht). simpl.
  destruct (negb _); [now exists None |].
  destruct (available_bikes_typed target d Ht) as (n & ->). simpl.
  destruct (count <=? n); [| now exists None].
  rewrite (field_getitem _ _ _ Hlat). simpl.
  rewrite (field_getitem _ _ _ Hlon). simpl. rewrite Hd. simpl.
  rewrite (field_getitem _ _ _ Hname). simpl. eexists; reflexivity.
Qed.

Lemma dock_station_body_total (w : env) (latitude longitude : float)
  (count : Z) (statuses : Py.dict) (item : value * value) :
  Forall (fun kv => has_station_id (snd kv)) statuses ->
  Forall (fun kv => Shape.typed_status (snd kv) = true) statuses ->
  Shape.station_record w latitude longitude (snd item) ->
  exists o, dock_station_body w latitude longitude count statuses item = Ok o.
Proof.
  intros F T ((lat & lon & dist & Hlat & Hlon & Hd) & name & Hname).
  destruct item as [station_id station]. simpl in *.
  unfold dock_station_body.
  rewrite (status_missing statuses station_id F), dict_get_joined.
  destruct (Spec.joined statuses station_id) as [status |] eqn:J; simpl.
  2: { now exists None. }
  destruct (joined_typed _ _ _ F T J) as (d & -> & Ht). simpl.
  destruct (negb _); [now exists None |].
  unfold Shape.typed_status in Ht.
  apply andb_true_iff in Ht. destruct Ht as [Ht _].
  apply andb_true_iff in Ht. destruct Ht as [_ Ht]. simpl in Ht.
  destruct (Py.lookup "num_docks_available" d) as [[| | n | | | |] |];
    try discriminate. simpl.
  destruct (count <=? n); [| now exists None].
  rewrite (field_getitem _ _ _ Hlat). simpl.
  rewrite (field_getitem _ _ _ Hlon). simpl. rewrite Hd. simpl.
  rewrite (field_getitem _ _ _ Hname). simpl. eexists; reflexivity.
Qed.

Lemma free_bike_body_total (w : env) (latitude longitude : float)
  (target : option string) (bike : value) :
  Shape.located w latitude longitude bike ->
  exists o, free_bike_body w latitude longitude target bike = Ok o.
Proof.
  intros (lat & lon & dist & Hlat & Hlon & Hd).
  destruct bike as [| | | | | | d]; try discriminate.
  unfold free_bike_body. cbn [Py.get bind].
  assert (Hu : exists u,
             (if Py.truthy match Py.lookup "is_reserved" d with
                           | Some x => x
                           | None => VNone
                           end
              then Ok true
              else Ok (Py.truthy match Py.lookup "is_disabled" d with
                                 | Some x => x
                                 | None => VNone
                                 end)) = Ok u)
    by (destruct (Py.truthy _); eexists; reflexivity).
  destruct Hu as (u & ->). cbn [bind].
  destruct u; [now exists None |].
  assert (Ho : exists o,
             match target with
             | Some t =>
                 Ok (negb (Py.eq_str match Py.lookup "vehicle_type_id" d with
                                     | Some x => x
                                     | None => VNone
                                     end t))
             | None => Ok false
             end = Ok o)
    by (destruct target; eexists; reflexivity).
  destruct Ho as (o & ->). cbn [bind].
  destruct o; [now exists None |].
  rewrite (field_getitem _ _ _ Hlat). cbn [bind].
  rewrite (field_getitem _ _ _ Hlon). cbn [bind]. rewrite Hd. cbn [bind].
  eexists; reflexivity.
Qed.

Lemma collect_total {A B : Type} (body : A -> result (option B)) :
  forall xs acc,
    Forall (fun x => exists o, body x = Ok o) xs ->
    exists l, collect body xs acc = Ok l.
Proof.
  induction xs as [| x xs IH]; intros acc F.
  - now exists acc.
  - inversion F as [| x' xs' (o & Hx) Hxs]; subst. simpl. rewrite Hx. simpl.
    now apply IH.
Qed.

(** On feeds of the GBFS shape (statuses with integer counts, a dock
    count and a well-formed breakdown; stations with a name and a position
    geopy accepts; free bikes with such a position) the candidates of both
    tools are computed without an exception, for every [count] and every
    type restriction. *)
Theorem shaped_feeds_never_raise :
  forall (w : env) (latitude longitude : float) (count : Z)
         (target : option string) (status_feed : value)
         (stations statuses : Py.dict) (bikes : list value),
    by_station_id status_feed = Ok statuses ->
    Forall (fun kv => Shape.typed_status (snd kv) = true) statuses ->
    Forall (fun item => Shape.station_record w latitude longitude (snd item))
           stations ->
    Forall (Shape.located w latitude longitude) bikes ->
    (exists candidates,
        bike_candidates w latitude longitude count target stations statuses
          (VList bikes) = Ok candidates) /\
    (exists candidates,
        dock_candidates w latitude longitude count stations statuses
          = Ok candidates).
Proof.
  intros w latitude longitude count target status_feed stations statuses bikes
    Hs T R L.
  apply by_station_id_values in Hs. split.
  - unfold bike_candidates.
    destruct (collect_total
                (bike_station_body w latitude longitude count target statuses)
                stations []) as (l & ->).
    { eapply Forall_impl; [| exact R]. intros item Hi.
      now apply bike_station_body_total. }
    simpl. destruct (count =? 1); [| now exists l].
    apply collect_total. eapply Forall_impl; [| exact L].
    intros bike Hb. now apply free_bike_body_total.
  - unfold dock_candidates. apply collect_total.
    eapply Forall_impl; [| exact R]. intros item Hi.
    now apply dock_station_body_total.
Qed.

Lemma shaped_feeds_never_raise_witness :
  by_station_id (VList Example.statuses) = Ok Example.status_index /\
  Forall (fun kv => Shape.typed_status (snd kv) = true) Example.status_index /\
  Forall (fun item => Shape.station_record Example.city 37 (-122) (snd item))
         Example.station_index /\
  Forall (Shape.located Example.city 37 (-122)) Example.bikes /\
  (exists candidates,
      bike_candidates Example.city 37 (-122) 1 (Some "2") Example.station_index
        Example.status_index (VList Example.bikes) = Ok candidates) /\
  (exists candidates,
      dock_candidates Example.city 37 (-122) 1 Example.station_index
        Example.status_index = Ok candidates).
Proof.
  assert (T : Forall (fun kv => Shape.typed_status (snd kv) = true)
                     Example.status_index) by (repeat constructor).
  assert (R : Forall (fun item =>
                        Shape.station_record Example.city 37 (-122) (snd item))
                     Example.station_index).
  { repeat first
      [ apply Forall_nil
      | apply Forall_cons
      | split
      | (do 3 eexists; repeat split; vm_compute; reflexivity)
      | (eexists; vm_compute; reflexivity) ]. }
  assert (L : Forall (Shape.located Example.city 37 (-122)) Example.bikes).
  { repeat first
      [ apply Forall_nil
      | apply Forall_cons
      | (do 3 eexists; repeat split; vm_compute; reflexivity) ]. }
  split; [reflexivity |]. split; [exact T |]. split; [exact R |].
  split; [exact L |].
  apply (shaped_feeds_never_raise Example.city 37 (-122) 1 (Some "2")
           (VList Example.statuses) Example.station_index Example.status_index
           Example.bikes eq_refl T R L).
Defined.

(** ** The loops against the typed reading *)

Lemma joined_status_of (statuses : Py.dict) (id : string) :
  Spec.joined statuses (VStr id) = Gbfs.status_of statuses id.
Proof.
  unfold Spec.joined, Gbfs.status_of. f_equal.
  induction statuses as [| [k v] t IH]; simpl; [reflexivity |].
  rewrite key_eq_str. destruct k; simpl; try exact IH.
  destruct (s =? id)%string; [reflexivity | exact IH].
Qed.

Lemma flag_on (s : value) (k : string) :
  Gbfs.flag_or_absent (Spec.field s k) = true ->
  Spec.flag s k = Gbfs.on (Spec.field s k).
Proof.
  unfold Spec.flag. destruct (Spec.field s k) as [[| [|] | | | | |] |];
    simpl; try discriminate; reflexivity.
Qed.

Lemma has_type_of_type (t : string) (v : value) :
  Spec.has_type t v = Gbfs.of_type t v.
Proof.
  unfold Spec.has_type, Gbfs.of_type.
  destruct (Spec.field v "vehicle_type_id") as [[| | | | | |] |]; reflexivity.
Qed.

Lemma filter_has_type (t : string) (vs : list value) :
  filter (Spec.has_type t) vs = filter (Gbfs.of_type t) vs.
Proof.
  apply filter_ext. intros v. apply has_type_of_type.
Qed.

Lemma sum_typed (t : string) :
  forall vs a,
    forallb Shape.typed_entry vs = true ->
    Spec.sum (map Spec.count_of (filter (Gbfs.of_type t) vs)) (VInt a)
      = Ok (VInt (a + fold_right Z.add 0
                        (map (fun v => Gbfs.int_member (Spec.field v "count") 0)
                             (filter (Gbfs.of_type t) vs)))).
Proof.
  induction vs as [| v vs IH]; intros a H.
  - simpl. now rewrite Z.add_0_r.
  - simpl in H. apply andb_true_iff in H. destruct H as [Hv Hvs].
    cbn [filter]. destruct (Gbfs.of_type t v); [| now apply IH].
    unfold Shape.typed_entry in Hv. apply andb_true_iff in Hv.
    destruct Hv as [_ Hc]. cbn [map fold_right Spec.sum].
    unfold Spec.count_of at 1.
    destruct (Spec.field v "count") as [[| | n | | | |] |];
      try discriminate; simpl; rewrite (IH _ Hvs); do 2 f_equal; lia.
Qed.

Lemma breakdown_typed (status : value) :
  Gbfs.bike_status status = true ->
  forallb Shape.typed_entry (Spec.breakdown status) = true.
Proof.
  unfold Gbfs.bike_status, Spec.breakdown. intros H.
  apply andb_true_iff in H. destruct H as [_ H].
  destruct (Spec.field status "vehicle_types_available")
    as [[| | | | | vs |] |]; try discriminate; [exact H | reflexivity].
Qed.

Lemma available_typed (target : option string) (status : value) :
  Gbfs.bike_status status = true ->
  Spec.available_count target status
    = Ok (VInt (Gbfs.available target status)).
Proof.
  intros H. unfold Spec.available_count, Gbfs.available.
  destruct target as [t |].
  - rewrite filter_has_type.
    now rewrite (sum_typed t _ 0 (breakdown_typed status H)).
  - unfold Gbfs.bike_status in H. apply andb_true_iff in H.
    destruct H as [H _]. apply andb_true_iff in H. destruct H as [_ H].
    destruct (Spec.field status "num_bikes_available") as [[| | n | | | |] |];
      try discriminate; reflexivity.
Qed.

Lemma status_of_In (statuses : Py.dict) (id : string) (status : value) :
  Gbfs.status_of statuses id = Some status -> exists k, In (k, status) statuses.
Proof.
  rewrite <- joined_status_of. apply joined_In.
Qed.

Lemma station_eligible_typed (target : option string) (count : Z)
  (statuses : Py.dict) (id : string) :
  Forall (fun kv => Gbfs.bike_status (snd kv) = true) statuses ->
  Spec.station_eligible target count statuses (VStr id)
    = Gbfs.station_eligible target count statuses id.
Proof.
  intros T. unfold Spec.station_eligible, Gbfs.station_eligible.
  rewrite joined_status_of.
  destruct (Gbfs.status_of statuses id) as [status |] eqn:J; [| reflexivity].
  destruct (status_of_In _ _ _ J) as (k & Hin).
  rewrite Forall_forall in T. pose proof (T _ Hin) as Ht. simpl in Ht.
  rewrite (available_typed target status Ht). simpl.
  f_equal. apply flag_on.
  unfold Gbfs.bike_status in Ht. apply andb_true_iff in Ht.
  destruct Ht as [Ht _]. apply andb_true_iff in Ht. apply Ht.
Qed.

Lemma bike_station_body_typed (w : env) (latitude longitude : float)
  (count : Z) (target : option string) (statuses : Py.dict) (id : string)
  (station : value) (out : option candidate) :
  Forall (fun kv => has_station_id (snd kv)) statuses ->
  Forall (fun kv => Gbfs.bike_status (snd kv) = true) statuses ->
  bike_station_body w latitude longitude count target statuses (VStr id, station)
    = Ok out ->
  out = (if Gbfs.station_eligible target count statuses id
         then Gbfs.station_candidate w latitude longitude target statuses
                (VStr id, station)
         else None) /\
  (Gbfs.station_eligible target count statuses id = true -> out <> None).
Proof.
  intros F T H. apply (bike_station_body_spec _ _ _ _ _ _ _ _ F) in H.
  simpl fst in H. rewrite (station_eligible_typed _ _ _ _ T) in H.
  destruct out as [c |].
  - destruct H as (He & Hty & Hname & Hlat & Hlon & (status & J & Ha) & Hd).
    rewrite He. split; [| discriminate].
    unfold Gbfs.station_candidate. cbn [fst snd] in *.
    rewrite joined_status_of in J. rewrite J, Hname, Hlat, Hlon, Hd.
    destruct (status_of_In _ _ _ J) as (k & Hin).
    rewrite Forall_forall in T. pose proof (T _ Hin) as Ht. simpl in Ht.
    rewrite (available_typed target status Ht) in Ha. injection Ha as Ha.
    destruct c; simpl in *; subst; reflexivity.
  - rewrite H. split; [reflexivity | discriminate].
Qed.

Lemma kept_flat_map {A B : Type} (body : A -> result (option B))
  (f : A -> list B) :
  forall xs outs,
    Forall2 (fun x o => body x = Ok o) xs outs ->
    Forall (fun x => forall o, body x = Ok o ->
                               match o with Some c => [c] | None => [] end = f x)
           xs ->
    kept outs = flat_map f xs.
Proof.
  intros xs outs F. induction F as [| x o xs outs Hx F IH]; intros G.
  - reflexivity.
  - inversion G as [| x' xs' Gx Gxs]; subst. simpl.
    rewrite <- (Gx o Hx), (IH Gxs). reflexivity.
Qed.

(** C1. In [find_nearest_bike], on a status feed of the GBFS types, the
    station candidates are exactly the stations that have a joined status
    with [is_renting] true and availableCount at least [count], each with
    its availableCount: the sum of the counts of the breakdown entries of
    the requested type (0 when the breakdown is absent or has no such
    entry) under a type restriction, [num_bikes_available] otherwise.  No
    eligible station is left out, and a station with no joined status or
    with [is_renting] false is never a candidate. *)
Theorem station_candidates_eligible :
  forall (w : env) (latitude longitude : float) (count : Z)
         (target : option string) (status_feed : value)
         (stations statuses : Py.dict) (free_bikes : value)
         (candidates : list candidate),
    by_station_id status_feed = Ok statuses ->
    Forall (fun kv => Gbfs.bike_status (snd kv) = true) statuses ->
    Forall (fun item => Gbfs.string_key (fst item) = true) stations ->
    bike_candidates w latitude longitude count target stations statuses free_bikes
      = Ok candidates ->
    (exists free,
        candidates =
          Gbfs.station_candidates w latitude longitude count target stations
            statuses ++ free /\
        Forall (fun c => c_type c = "Free Bike") free) /\
    Forall (fun item =>
              Gbfs.chosen item (Gbfs.station_eligible target count statuses) = true ->
              Gbfs.station_candidate w latitude longitude target statuses item
                <> None) stations /\
    (forall id,
        Gbfs.status_of statuses id = None \/
        (exists status, Gbfs.status_of statuses id = Some status /\
                        Gbfs.on (Spec.field status "is_renting") = false) ->
        Gbfs.station_eligible target count statuses id = false).
Proof.
  intros w latitude longitude count target status_feed stations statuses
    free_bikes candidates Hs T K Hc.
  apply by_station_id_values in Hs.
  apply bike_candidates_split in Hc.
  destruct Hc as (souts & bikes & bouts & Fs & _ & Fb & ->).
  split; [| split].
  - exists (kept bouts). split.
    + f_equal. unfold Gbfs.station_candidates.
      apply (kept_flat_map _ _ _ _ Fs).
      eapply Forall_impl; [| exact K]. intros [k station] Hk o Ho.
      destruct k; try discriminate. unfold Gbfs.chosen. cbn [fst].
      destruct (bike_station_body_typed _ _ _ _ _ _ _ _ _ Hs T Ho) as [-> _].
      now destruct (Gbfs.station_eligible target count statuses s).
    + eapply kept_Forall; [| exact Fb]. intros x c. apply free_bike_body_type.
  - clear Fb. induction Fs as [| [k station] o stations souts Ho Fs IH].
    + constructor.
    + inversion K as [| item items Hk Ks]; subst. constructor; [| now apply IH].
      destruct k; try discriminate. unfold Gbfs.chosen. cbn [fst]. intros He.
      destruct (bike_station_body_typed _ _ _ _ _ _ _ _ _ Hs T Ho) as [Ho' Hn].
      rewrite He in Ho'. rewrite <- Ho'. now apply Hn.
  - intros id [J | (status & J & Hf)]; unfold Gbfs.station_eligible;
      rewrite J; [reflexivity | now rewrite Hf].
Qed.

Lemma station_candidates_eligible_witness :
  by_station_id (VList Fleet.statuses) = Ok Fleet.status_index /\
  Forall (fun kv => Gbfs.bike_status (snd kv) = true) Fleet.status_index /\
  Forall (fun item => Gbfs.string_key (fst item) = true) Fleet.station_index /\
  bike_candidates Fleet.city 37 (-122) 5 (Some "2") Fleet.station_index
    Fleet.status_index (VList Fleet.bikes) = Ok [Fleet.alpha 5] /\
  Gbfs.station_candidates Fleet.city 37 (-122) 5 (Some "2") Fleet.station_index
    Fleet.status_index = [Fleet.alpha 5] /\
  Gbfs.station_candidates Fleet.city 37 (-122) 5 None Fleet.station_index
    Fleet.status_index = [Fleet.alpha 9; Fleet.bravo 9] /\
  Gbfs.station_candidates Fleet.city 37 (-122) 6 (Some "2") Fleet.station_index
    Fleet.status_index = [] /\
  ((exists free,
       [Fleet.alpha 5] =
         Gbfs.station_candidates Fleet.city 37 (-122) 5 (Some "2")
           Fleet.station_index Fleet.status_index ++ free /\
       Forall (fun c => c_type c = "Free Bike") free) /\
   Forall (fun item =>
             Gbfs.chosen item (Gbfs.station_eligible (Some "2") 5 Fleet.status_index)
               = true ->
             Gbfs.station_candidate Fleet.city 37 (-122) (Some "2")
               Fleet.status_index item <> None) Fleet.station_index /\
   (forall id,
       Gbfs.status_of Fleet.status_index id = None \/
       (exists status, Gbfs.status_of Fleet.status_index id = Some status /\
                       Gbfs.on (Spec.field status "is_renting") = false) ->
       Gbfs.station_eligible (Some "2") 5 Fleet.status_index id = false)).
Proof.
  assert (T : Forall (fun kv => Gbfs.bike_status (snd kv) = true)
                     Fleet.status_index) by (repeat constructor).
  assert (K : Forall (fun item => Gbfs.string_key (fst item) = true)
                     Fleet.station_index) by (repeat constructor).
  split; [reflexivity |]. split; [exact T |]. split; [exact K |].
  split; [vm_compute; reflexivity |]. split; [vm_compute; reflexivity |].
  split; [vm_compute; reflexivity |]. split; [vm_compute; reflexivity |].
  apply (station_candidates_eligible Fleet.city 37 (-122) 5 (Some "2")
           (VList Fleet.statuses) Fleet.station_index Fleet.status_index
           (VList Fleet.bikes) [Fleet.alpha 5] eq_refl T K).
  vm_compute; reflexivity.
Defined.

Lemma free_bike_body_name (w : env) (latitude longitude : float)
  (target : option string) (bike : value) (c : candidate) :
  Gbfs.text_or_absent (Spec.field bike "bike_id") = true ->
  free_bike_body w latitude longitude target bike = Ok (Some c) ->
  c_name c = VStr (Gbfs.bike_name bike).
Proof.
  intros Ht H. unfold free_bike_body in H.
  bind_inv H. bind_inv H. destruct a0; [discriminate |].
  bind_inv H. destruct a0; [discriminate |].
  do 4 bind_inv H. injection H as <-. simpl.
  apply get_Ok in E5. destruct E5 as (d & -> & ->).
  unfold Gbfs.bike_name. simpl in *.
  destruct (Py.lookup "bike_id" d) as [[| | | | | |] |];
    try discriminate; reflexivity.
Qed.

Lemma bike_eligible_typed (target : option string) (bike : value) :
  Gbfs.typed_bike bike = true ->
  Spec.free_bike_eligible target bike = Gbfs.bike_eligible target bike.
Proof.
  unfold Gbfs.typed_bike. intros H.
  apply andb_true_iff in H. destruct H as [H _].
  apply andb_true_iff in H. destruct H as [H Hd].
  apply andb_true_iff in H. destruct H as [_ Hr].
  unfold Spec.free_bike_eligible, Gbfs.bike_eligible.
  rewrite (flag_on _ _ Hr), (flag_on _ _ Hd).
  destruct target as [t |]; [now rewrite has_type_of_type | reflexivity].
Qed.

Lemma free_bike_body_typed (w : env) (latitude longitude : float)
  (target : option string) (bike : value) (out : option candidate) :
  Gbfs.typed_bike bike = true ->
  free_bike_body w latitude longitude target bike = Ok out ->
  out = (if Gbfs.bike_eligible target bike
         then Gbfs.free_bike_candidate w latitude longitude bike
         else None) /\
  (Gbfs.bike_eligible target bike = true -> out <> None).
Proof.
  intros T H. pose proof H as Hb. apply free_bike_body_spec in H.
  rewrite (bike_eligible_typed _ _ T) in H. destruct out as [c |].
  - destruct H as (He & Hty & Ha & Hlat & Hlon & Hd).
    rewrite He. split; [| discriminate].
    assert (Hn : c_name c = VStr (Gbfs.bike_name bike)).
    { apply (free_bike_body_name w latitude longitude target); [| exact Hb].
      unfold Gbfs.typed_bike in T. apply andb_true_iff in T. apply T. }
    unfold Gbfs.free_bike_candidate. rewrite Hlat, Hlon, Hd.
    destruct c; simpl in *; subst; reflexivity.
  - rewrite H. split; [reflexivity | discriminate].
Qed.

(** C3. In [find_nearest_bike], on a free-bike feed of the GBFS types,
    the free bikes are scanned only when [count == 1]; the free-bike
    candidates are then exactly the bikes that are neither reserved nor
    disabled and, under a type restriction, of the requested type, one
    candidate each with availableCount 1; for any other [count] every
    candidate is a station. *)
Theorem free_bike_candidates_eligible :
  forall (w : env) (latitude longitude : float) (count : Z)
         (target : option string) (stations statuses : Py.dict)
         (bikes : list value) (candidates : list candidate),
    Forall (fun bike => Gbfs.typed_bike bike = true) bikes ->
    bike_candidates w latitude longitude count target stations statuses
      (VList bikes) = Ok candidates ->
    (exists docked,
        candidates =
          docked ++ Gbfs.free_bike_candidates w latitude longitude count target
                      bikes /\
        Forall (fun c => c_type c = "Station") docked) /\
    (count = 1 ->
     Forall (fun bike =>
               Gbfs.bike_eligible target bike = true ->
               exists c,
                 Gbfs.free_bike_candidate w latitude longitude bike = Some c /\
                 c_available c = VInt 1) bikes) /\
    (count <> 1 -> Forall (fun c => c_type c = "Station") candidates) /\
    (forall bike,
        Gbfs.on (Spec.field bike "is_reserved") = true \/
        Gbfs.on (Spec.field bike "is_disabled") = true ->
        Gbfs.bike_eligible target bike = false).
Proof.
  intros w latitude longitude count target stations statuses bikes candidates
    T Hc.
  apply bike_candidates_split in Hc.
  destruct Hc as (souts & scanned & bouts & Fs & Hi & Fb & ->).
  assert (Hd : Forall (fun c => c_type c = "Station") (kept souts)).
  { eapply kept_Forall; [| exact Fs]. intros x c. apply bike_station_body_type. }
  split; [| split; [| split]].
  - exists (kept souts). split; [| exact Hd]. f_equal.
    unfold Gbfs.free_bike_candidates. destruct (count =? 1)%Z.
    + simpl in Hi. injection Hi as <-.
      apply (kept_flat_map _ _ _ _ Fb).
      eapply Forall_impl; [| exact T]. intros bike Hb o Ho.
      destruct (free_bike_body_typed _ _ _ _ _ _ Hb Ho) as [-> _].
      now destruct (Gbfs.bike_eligible target bike).
    + subst scanned. inversion Fb; subst. reflexivity.
  - intros ->. simpl in Hi. injection Hi as <-. clear Fs Hd.
    induction Fb as [| bike o bikes bouts Ho Fb IH]; [constructor |].
    inversion T as [| b bs Hb Tb]; subst. constructor; [| now apply IH].
    intros He.
    destruct (free_bike_body_typed _ _ _ _ _ _ Hb Ho) as [Ho' Hn].
    rewrite He in Ho'. destruct o as [c |]; [| now destruct (Hn He)].
    exists c. split; [now rewrite <- Ho' |].
    apply free_bike_body_spec in Ho. apply Ho.
  - intros Hne. apply Z.eqb_neq in Hne. rewrite Hne in Hi. subst scanned.
    inversion Fb; subst. simpl. now rewrite app_nil_r.
  - intros bike [H | H]; unfold Gbfs.bike_eligible; rewrite H;
      [reflexivity | now rewrite andb_false_r].
Qed.

Lemma free_bike_candidates_eligible_witness :
  Forall (fun bike => Gbfs.typed_bike bike = true) Fleet.bikes /\
  bike_candidates Fleet.city 37 (-122) 1 (Some "2") Fleet.station_index
    Fleet.status_index (VList Fleet.bikes)
    = Ok [Fleet.alpha 5; Fleet.bravo 4; Fleet.free_B1; Fleet.free_unknown] /\
  Gbfs.free_bike_candidates Fleet.city 37 (-122) 1 (Some "2") Fleet.bikes
    = [Fleet.free_B1; Fleet.free_unknown] /\
  Gbfs.free_bike_candidates Fleet.city 37 (-122) 2 (Some "2") Fleet.bikes = [] /\
  ((exists docked,
       [Fleet.alpha 5; Fleet.bravo 4; Fleet.free_B1; Fleet.free_unknown] =
         docked ++ Gbfs.free_bike_candidates Fleet.city 37 (-122) 1 (Some "2")
                     Fleet.bikes /\
       Forall (fun c => c_type c = "Station") docked) /\
   (1 = 1 ->
    Forall (fun bike =>
              Gbfs.bike_eligible (Some "2") bike = true ->
              exists c,
                Gbfs.free_bike_candidate Fleet.city 37 (-122) bike = Some c /\
                c_available c = VInt 1) Fleet.bikes) /\
   (1 <> 1 ->
    Forall (fun c => c_type c = "Station")
           [Fleet.alpha 5; Fleet.bravo 4; Fleet.free_B1; Fleet.free_unknown]) /\
   (forall bike,
       Gbfs.on (Spec.field bike "is_reserved") = true \/
       Gbfs.on (Spec.field bike "is_disabled") = true ->
       Gbfs.bike_eligible (Some "2") bike = false)).
Proof.
  assert (T : Forall (fun bike => Gbfs.typed_bike bike = true) Fleet.bikes)
    by (repeat constructor).
  split; [exact T |]. split; [vm_compute; reflexivity |].
  split; [vm_compute; reflexivity |]. split; [vm_compute; reflexivity |].
  apply (free_bike_candidates_eligible Fleet.city 37 (-122) 1 (Some "2")
           Fleet.station_index Fleet.status_index Fleet.bikes
           [Fleet.alpha 5; Fleet.bravo 4; Fleet.free_B1; Fleet.free_unknown] T).
  vm_compute; reflexivity.
Defined.

(** ** The text of an answer *)

Lemma numeral_str_of_int (n : Z) : Gbfs.numeral n (Py.str_of_int n).
Proof.
  unfold Gbfs.numeral, Py.str_of_int. apply NilZero.isi.
  - destruct n; simpl; try discriminate.
    intros H. injection H as H. exact (Unsigned.to_uint_nonnil p H).
  - destruct n; simpl; try discriminate.
    intros H. injection H as H. exact (Unsigned.to_uint_nonnil p H).
Qed.

Lemma str_shows (w : env) (v : value) : Gbfs.shows w v (str w v).
Proof.
  destruct v as [| [|] | n | | | |]; simpl; try reflexivity.
  apply numeral_str_of_int.
Qed.

Lemma round_half_even_nonneg (q : Q) : (0 <= q)%Q -> 0 <= round_half_even q.
Proof.
  intros H. unfold round_half_even.
  assert (Hf : 0 <= Qfloor q).
  { change 0 with (Qfloor 0). now apply Qfloor_resp_le. }
  destruct (q - inject_Z (Qfloor q) ?= 1 # 2)%Q; [| lia | lia].
  destruct (Z.even (Qfloor q)); lia.
Qed.

Lemma format_1f_one_decimal (q : Q) : Gbfs.one_decimal q (format_1f q).
Proof.
  set (n := round_half_even (inject_Z 10 * Qabs q)).
  assert (Hn : 0 <= n).
  { apply round_half_even_nonneg. apply Qmult_le_0_compat;
      [discriminate | apply Qabs_nonneg]. }
  exists (n / 10), (n mod 10), (Py.str_of_int (n / 10)),
         (Py.str_of_int (n mod 10)).
  split; [apply Z.div_pos; lia |].
  split; [apply Z.mod_pos_bound; lia |].
  split.
  - rewrite <- (Z.div_mod n 10) by lia. apply round_half_even_near.
  - split; [apply numeral_str_of_int |].
    split; [apply numeral_str_of_int | reflexivity].
Qed.

(** C2. When the candidate set is not empty, both operations report the
    candidate at minimum distance, the first one in the order of
    [candidates] on an exact tie; the text carries the kind and the name,
    the distance rounded to one decimal place, the available count and
    the latitude and longitude of the winner as the feed gives them. *)
Theorem nearest_candidate_reported :
  forall (w : env) (latitude longitude : float) (count : Z)
         (bike_type : option string),
    (forall candidates,
        find_nearest_bike_candidates w latitude longitude count bike_type
          = Ok candidates ->
        candidates <> [] ->
        exists nearest name meters available lat lon,
          Spec.first_nearest c_distance candidates nearest /\
          Gbfs.shows w (c_name nearest) name /\
          Gbfs.one_decimal (c_distance nearest) meters /\
          Gbfs.shows w (c_available nearest) available /\
          Gbfs.shows w (c_lat nearest) lat /\
          Gbfs.shows w (c_lon nearest) lon /\
          find_nearest_bike w latitude longitude count bike_type =
            ("Nearest option: " ++ c_type nearest ++ " - " ++ name ++ nl
               ++ "Distance: " ++ meters ++ " meters" ++ nl
               ++ "Available: " ++ available ++ nl
               ++ "Location: " ++ lat ++ ", " ++ lon)%string) /\
    (forall candidates,
        find_nearest_dock_spaces_candidates w latitude longitude count
          = Ok candidates ->
        candidates <> [] ->
        exists nearest name meters available lat lon,
          Spec.first_nearest d_distance candidates nearest /\
          Gbfs.shows w (d_name nearest) name /\
          Gbfs.one_decimal (d_distance nearest) meters /\
          Gbfs.shows w (d_available nearest) available /\
          Gbfs.shows w (d_lat nearest) lat /\
          Gbfs.shows w (d_lon nearest) lon /\
          find_nearest_dock_spaces w latitude longitude count =
            ("Nearest dock with spaces: " ++ name ++ nl
               ++ "Distance: " ++ meters ++ " meters" ++ nl
               ++ "Spaces Available: " ++ available ++ nl
               ++ "Location: " ++ lat ++ ", " ++ lon)%string).
Proof.
  intros w latitude longitude count bike_type. split.
  - intros candidates Hc Hne.
    destruct (answer_bike_nearest w candidates Hne) as (x & Hx & Ha).
    exists x, (str w (c_name x)), (format_1f (c_distance x)),
           (str w (c_available x)), (str w (c_lat x)), (str w (c_lon x)).
    split; [exact Hx |]. split; [apply str_shows |].
    split; [apply format_1f_one_decimal |].
    split; [apply str_shows |]. split; [apply str_shows |].
    split; [apply str_shows |].
    unfold find_nearest_bike, find_nearest_bike_try.
    rewrite Hc. simpl. rewrite Ha. reflexivity.
  - intros candidates Hc Hne.
    destruct (answer_dock_nearest w candidates Hne) as (x & Hx & Ha).
    exists x, (str w (d_name x)), (format_1f (d_distance x)),
           (str w (d_available x)), (str w (d_lat x)), (str w (d_lon x)).
    split; [exact Hx |]. split; [apply str_shows |].
    split; [apply format_1f_one_decimal |].
    split; [apply str_shows |]. split; [apply str_shows |].
    split; [apply str_shows |].
    unfold find_nearest_dock_spaces, find_nearest_dock_spaces_try.
    rewrite Hc. simpl. rewrite Ha. reflexivity.
Qed.

Lemma nearest_candidate_reported_witness :
  find_nearest_bike_candidates Example.city Fleet.off_centre (-122) 1 None
    = Ok [Fleet.near_ferry_building; Fleet.near_market_st; Fleet.near_B1] /\
  Spec.first_nearest c_distance
    [Fleet.near_ferry_building; Fleet.near_market_st; Fleet.near_B1]
    Fleet.near_market_st /\
  find_nearest_bike Example.city Fleet.off_centre (-122) 1 None
    = ("Nearest option: Station - Market St" ++ nl
         ++ "Distance: 49999.9 meters" ++ nl
         ++ "Available: 9" ++ nl
         ++ "Location: 38, -122")%string /\
  find_nearest_dock_spaces_candidates Example.city Fleet.off_centre (-122) 1
    = Ok [Fleet.near_ferry_building_dock; Fleet.near_depot_dock] /\
  Spec.first_nearest d_distance
    [Fleet.near_ferry_building_dock; Fleet.near_depot_dock]
    Fleet.near_ferry_building_dock /\
  find_nearest_dock_spaces Example.city Fleet.off_centre (-122) 1
    = ("Nearest dock with spaces: Ferry Building" ++ nl
         ++ "Distance: 50000.1 meters" ++ nl
         ++ "Spaces Available: 3" ++ nl
         ++ "Location: 37, -122")%string /\
  (exists nearest name meters available lat lon,
      Spec.first_nearest c_distance
        [Fleet.near_ferry_building; Fleet.near_market_st; Fleet.near_B1]
        nearest /\
      Gbfs.shows Example.city (c_name nearest) name /\
      Gbfs.one_decimal (c_distance nearest) meters /\
      Gbfs.shows Example.city (c_available nearest) available /\
      Gbfs.shows Example.city (c_lat nearest) lat /\
      Gbfs.shows Example.city (c_lon nearest) lon /\
      find_nearest_bike Example.city Fleet.off_centre (-122) 1 None =
        ("Nearest option: " ++ c_type nearest ++ " - " ++ name ++ nl
           ++ "Distance: " ++ meters ++ " meters" ++ nl
           ++ "Available: " ++ available ++ nl
           ++ "Location: " ++ lat ++ ", " ++ lon)%string) /\
  (exists nearest name meters available lat lon,
      Spec.first_nearest d_distance
        [Fleet.near_ferry_building_dock; Fleet.near_depot_dock] nearest /\
      Gbfs.shows Example.city (d_name nearest) name /\
      Gbfs.one_decimal (d_distance nearest) meters /\
      Gbfs.shows Example.city (d_available nearest) available /\
      Gbfs.shows Example.city (d_lat nearest) lat /\
      Gbfs.shows Example.city (d_lon nearest) lon /\
      find_nearest_dock_spaces Example.city Fleet.off_centre (-122) 1 =
        ("Nearest dock with spaces: " ++ name ++ nl
           ++ "Distance: " ++ meters ++ " meters" ++ nl
           ++ "Spaces Available: " ++ available ++ nl
           ++ "Location: " ++ lat ++ ", " ++ lon)%string).
Proof.
  destruct (nearest_candidate_reported Example.city Fleet.off_centre (-122) 1
              None) as [Hb Hd].
  split; [vm_compute; reflexivity |].
  split.
  { exists [Fleet.near_ferry_building], [Fleet.near_B1].
    split; [reflexivity |].
    split; intros c [<- | []]; unfold Qlt, Qle; simpl; lia. }
  split; [vm_compute; reflexivity |].
  split; [vm_compute; reflexivity |].
  split.
  { exists [], [Fleet.near_depot_dock].
    split; [reflexivity |].
    split; [intros c [] | intros c [<- | []]; unfold Qle; simpl; lia]. }
  split; [vm_compute; reflexivity |].
  split.
  - apply Hb; [vm_compute; reflexivity | discriminate].
  - apply Hd; [vm_compute; reflexivity | discriminate].
Defined.

(** ** The bike type label, again *)










(** Outside ASCII the interpreter decides: where it lowers the KELVIN
    SIGN to the letter k, the label "ebi" + KELVIN SIGN + "e" asks for
    electric bikes. *)
Lemma kelvin_sign_is_a_k :
  AsciiText.only_ascii Fleet.kelvin_label = false /\
  lower Fleet.unicode_city Fleet.kelvin_label = "ebike" /\
  target_type_id Fleet.unicode_city (Some Fleet.kelvin_label) = Some "2".
Proof. repeat split; vm_compute; reflexivity. Qed.

(** ** Exceptions at the boundary of a tool *)











